(** * BookAI routing core: a shallow embedding and its properties

    The development follows the Python sources of the vertex adapter:
    - [bookai_adk/core/llm_router.py]   (module [LLMRouter])
    - [bookai_adk/agents/finance.py], [agents/code.py] (module [Agents])
    - [bookai_adk/core/orchestrator.py] (module [Orchestrator])
    - [bookai_adk/api/routes.py]        (module [Routes])

    Python values are an inductive type, Python floats are IEEE binary64
    numbers (Rocq's primitive floats), dictionaries indexed with [.get] and
    [[]] are finite maps, exceptions are the [Raise] outcome of a result
    type, and the calls an operation makes on its collaborators are
    recorded in a trace. *)

From Stdlib Require Import Floats ZArith Ascii.
From stdpp Require Import gmap strings list.

Set Warnings "-register-all,-inexact-float".

(** * Python values and the builtins the sources use *)
Module Py.

(** What [json.loads] can produce, which is also all the routing code
    ever stores in a dictionary.  A nested dictionary keeps its items in
    insertion order, since iterating over it yields its keys in that order. *)
Inductive value : Type :=
  | VNone
  | VBool (b : bool)
  | VInt (z : Z)
  | VFloat (f : float)
  | VStr (s : string)
  | VList (l : list value)
  | VDict (items : list (string * value)).

(** The exceptions that occur in the modelled code. *)
Inductive exn : Type :=
  | TypeError
  | KeyError
  | AttributeError
  | JSONDecodeError
  | ServiceError                       (* any failure of the hosted model call *)
  | ValidationError                    (* a field rejected by a response model *)
  | HTTPException (status_code : Z) (detail : string).

Inductive result (A : Type) : Type :=
  | Ok (a : A)
  | Raise (e : exn).
Arguments Ok {A} a.
Arguments Raise {A} e.

#[export] Instance result_ret : MRet result := fun A a => Ok a.
#[export] Instance result_bind : MBind result := fun A B k r =>
  match r with
  | Ok a => k a
  | Raise e => Raise e
  end.

(** ** Numbers: [<] between ints, bools and floats

    Python compares an int with a float by their exact mathematical
    values; [float_Z_compare] does so from the float's decoded sign,
    mantissa and exponent. *)
Inductive num : Type :=
  | NInt (z : Z)
  | NFloat (f : float).

Definition as_num (v : value) : option num :=
  match v with
  | VBool b => Some (NInt (if b then 1 else 0))
  | VInt z => Some (NInt z)
  | VFloat f => Some (NFloat f)
  | _ => None
  end.

(** [float_Z_compare f z] is [Some c] when [f] is not NaN, with [c] the
    comparison of the value of [f] with [z]. *)
Definition float_Z_compare (f : float) (z : Z) : option comparison :=
  match Prim2SF f with
  | S754_nan => None
  | S754_zero _ => Some (0 ?= z)%Z
  | S754_infinity neg => Some (if neg then Lt else Gt)
  | S754_finite neg m e =>
      let sm := if neg then Z.neg m else Z.pos m in
      Some (if (0 <=? e)%Z then (sm * 2 ^ e ?= z)%Z
            else (sm ?= z * 2 ^ (- e))%Z)
  end.

Definition num_ltb (a b : num) : bool :=
  match a, b with
  | NInt x, NInt y => (x <? y)%Z
  | NFloat x, NFloat y => (x <? y)%float
  | NFloat x, NInt y =>
      match float_Z_compare x y with Some Lt => true | _ => false end
  | NInt x, NFloat y =>
      match float_Z_compare y x with Some Gt => true | _ => false end
  end.

(** [a < b]; a [TypeError] when either side is not a number. *)
Definition lt (a b : value) : result bool :=
  match as_num a, as_num b with
  | Some x, Some y => Ok (num_ltb x y)
  | _, _ => Raise TypeError
  end.

(** [min(a, b)]: the first argument unless the second is smaller. *)
Definition min (a b : value) : result value :=
  c ← lt b a; mret (if c : bool then b else a).

(** [max(a, b)]: the first argument unless the second is greater. *)
Definition max (a b : value) : result value :=
  c ← lt a b; mret (if c : bool then b else a).

(** [min] on two floats, which cannot fail. *)
Definition fmin (a b : float) : float :=
  if (b <? a)%float then b else a.

(** [float(n)] for an int [n]; exact for the small counts it is used on. *)
Definition float_of_Z (z : Z) : float :=
  PrimFloat.of_uint63 (Uint63.of_Z z).

(** ** Truth value, equality with a string, hashing, iteration *)

Definition float_is_zero (f : float) : bool := (f =? 0)%float.

Definition truthy (v : value) : bool :=
  match v with
  | VNone => false
  | VBool b => b
  | VInt z => negb (z =? 0)%Z
  | VFloat f => negb (float_is_zero f)
  | VStr s => negb (String.eqb s "")
  | VList l => match l with [] => false | _ => true end
  | VDict items => match items with [] => false | _ => true end
  end.

(** [v == s] for a string [s]: no other kind of value equals a string. *)
Definition eq_str (v : value) (s : string) : bool :=
  match v with
  | VStr t => String.eqb t s
  | _ => false
  end.

(** [v in [s1, ..., sn]] for a list of strings: membership by [==]. *)
Definition in_str_list (v : value) (l : list string) : bool :=
  existsb (eq_str v) l.

(** [v in d] for a set or a dictionary with string keys [keys]: the
    value is hashed first, and lists and dictionaries are unhashable. *)
Definition in_str_keys (v : value) (keys : list string) : result bool :=
  match v with
  | VList _ | VDict _ => Raise TypeError
  | _ => Ok (existsb (eq_str v) keys)
  end.

(** The bytes 128 to 191, with which UTF-8 continues a character begun
    by an earlier byte. *)
Definition is_continuation (c : ascii) : bool :=
  let n := nat_of_ascii c in (128 <=? n)%nat && (n <=? 191)%nat.

(** All the bytes of [s] continue a character. *)
Fixpoint continues (s : string) : bool :=
  match s with
  | EmptyString => true
  | String c s' => is_continuation c && continues s'
  end.

(** The characters of a string whose bytes are [s], with the continuation
    bytes [s] starts with set apart. *)
Fixpoint chars_go (s : string) : string * list string :=
  match s with
  | EmptyString => (EmptyString, [])
  | String c s' =>
      let '(continuation, l) := chars_go s' in
      if is_continuation c then (String c continuation, l)
      else (EmptyString, String c continuation :: l)
  end.

(** The elements a [for] loop sees: those of a list, the characters of a
    string, the keys of a dictionary; other values are not iterable. *)
Definition chars (s : string) : list value :=
  let '(continuation, l) := chars_go s in
  VStr <$> (if String.eqb continuation "" then l else continuation :: l).

Definition iter (v : value) : result (list value) :=
  match v with
  | VList l => Ok l
  | VStr s => Ok (chars s)
  | VDict items => Ok ((fun kv => VStr kv.1) <$> items)
  | _ => Raise TypeError
  end.

(** A list comprehension [[x for x in l if p(x)]] whose condition may
    raise: the first exception aborts the whole comprehension. *)
Fixpoint filterM (p : value → result bool) (l : list value)
    : result (list value) :=
  match l with
  | [] => Ok []
  | x :: l' =>
      b ← p x;
      r ← filterM p l';
      mret (if b : bool then x :: r else r)
  end.

(** A value that can be hashed, hence looked up in a set or a
    dictionary. *)
Definition hashable (v : value) : bool :=
  match v with
  | VList _ | VDict _ => false
  | _ => true
  end.

(** A float within [0.0, 1.0], bounds included (so not NaN). *)
Definition in_unit_interval (f : float) : Prop :=
  (0 <=? f)%float = true ∧ (f <=? 1)%float = true.

(** ** Dictionaries used through [.get] and [[]] *)

(** [d.get(k, default)] *)
Definition get (d : gmap string value) (k : string) (dflt : value)
    : value :=
  match d !! k with
  | Some v => v
  | None => dflt
  end.

(** [d[k]] *)
Definition getitem (d : gmap string value) (k : string) : result value :=
  match d !! k with
  | Some v => Ok v
  | None => Raise KeyError
  end.

(** The dictionary built from a sequence of items; a later item with the
    same key overwrites an earlier one. *)
Definition dict_of_items (items : list (string * value))
    : gmap string value :=
  fold_left (fun d kv => <[kv.1 := kv.2]> d) items ∅.

(** ** Strings

    A string is the UTF-8 encoding of Python's string, one [ascii] per
    byte.  A keyword test [k in s] with an ASCII [k] is then the same on
    the bytes as on the characters. *)

Definition nl : string := String "010"%char EmptyString.
Definition dquote : string := String "034"%char EmptyString.

(** [c.lower()] on one character *)
Definition lower_ascii (c : ascii) : ascii :=
  let n := nat_of_ascii c in
  if (65 <=? n)%nat && (n <=? 90)%nat then ascii_of_nat (n + 32) else c.

(** [s.lower()], as far as ASCII text can tell: the letters A to Z, and
    the two characters outside ASCII whose lower-case form has an ASCII
    letter, U+0130 (bytes 196 176), which becomes i followed by U+0307
    (bytes 204 135), and the Kelvin sign U+212A (bytes 226 132 170), which
    becomes k.  Every other character outside ASCII is kept as it is: its
    lower-case form has no ASCII character, and the program only looks
    for ASCII keywords in a lower-cased string. *)
Fixpoint lower (s : string) : string :=
  match s with
  | EmptyString => EmptyString
  | String c s1 =>
      let plain := String (lower_ascii c) (lower s1) in
      match s1 with
      | EmptyString => plain
      | String c1 s2 =>
          if Ascii.eqb c "196" && Ascii.eqb c1 "176"
          then (* U+0130 *)
            String "i" (String "204" (String "135" (lower s2)))
          else
            match s2 with
            | EmptyString => plain
            | String c2 s3 =>
                if Ascii.eqb c "226" && Ascii.eqb c1 "132"
                   && Ascii.eqb c2 "170"
                then (* U+212A *) String "k" (lower s3)
                else plain
            end
      end
  end.

(** [s] starts with one of the two characters that [lower] rewrites as
    a whole. *)
Definition rewritten (s : string) : bool :=
  match s with
  | String c (String c1 s2) =>
      (Ascii.eqb c "196" && Ascii.eqb c1 "176")
      || match s2 with
         | String c2 _ =>
             Ascii.eqb c "226" && Ascii.eqb c1 "132" && Ascii.eqb c2 "170"
         | EmptyString => false
         end
  | _ => false
  end.

(** [s.isascii()] *)
Fixpoint isascii (s : string) : bool :=
  match s with
  | EmptyString => true
  | String c s' => (nat_of_ascii c <? 128)%nat && isascii s'
  end.

(** [k in s]: [k] occurs in [s] as a substring. *)
Fixpoint contains (k s : string) : bool :=
  String.prefix k s ||
  match s with
  | EmptyString => false
  | String _ s' => contains k s'
  end.

(** White space is what [str.isspace()] says.  In ASCII: the
    characters 9 to 13 and 28 to 32. *)
Definition is_space (c : ascii) : bool :=
  let n := nat_of_ascii c in
  ((9 <=? n)%nat && (n <=? 13)%nat) || ((28 <=? n)%nat && (n <=? 32)%nat).

(** On two bytes: U+0085 (194 133) and U+00A0 (194 160). *)
Definition is_space2 (c c1 : ascii) : bool :=
  Ascii.eqb c "194" && (Ascii.eqb c1 "133" || Ascii.eqb c1 "160").

(** On three bytes: U+1680 (225 154 128), U+2000 to U+200A (226 128 128
    to 226 128 138), U+2028, U+2029 and U+202F (226 128 168, 169, 175),
    U+205F (226 129 159) and U+3000 (227 128 128). *)
Definition is_space3 (c c1 c2 : ascii) : bool :=
  let n2 := nat_of_ascii c2 in
  (Ascii.eqb c "225" && Ascii.eqb c1 "154" && Ascii.eqb c2 "128")
  || (Ascii.eqb c "226" && Ascii.eqb c1 "128"
      && (((128 <=? n2)%nat && (n2 <=? 138)%nat)
          || Ascii.eqb c2 "168" || Ascii.eqb c2 "169" || Ascii.eqb c2 "175"))
  || (Ascii.eqb c "226" && Ascii.eqb c1 "129" && Ascii.eqb c2 "159")
  || (Ascii.eqb c "227" && Ascii.eqb c1 "128" && Ascii.eqb c2 "128").

(** The number of bytes of the white-space character that [s] starts
    with; 0 when it starts with none. *)
Definition space_length (s : string) : nat :=
  match s with
  | EmptyString => 0
  | String c s1 =>
      if is_space c then 1
      else
        match s1 with
        | EmptyString => 0
        | String c1 s2 =>
            if is_space2 c c1 then 2
            else
              match s2 with
              | EmptyString => 0
              | String c2 _ => if is_space3 c c1 c2 then 3 else 0
              end
        end
  end.

(** [s.split()]: the maximal runs of characters that are not white
    space, in order.  [w] is the word being read and [skip] the number
    of bytes still to pass over of the white-space character just met. *)
Fixpoint split_go (w : string) (skip : nat) (s : string) : list string :=
  match s with
  | EmptyString => if String.eqb w "" then [] else [w]
  | String c s' =>
      match skip with
      | S k => split_go w k s'
      | O =>
          match space_length s with
          | O => split_go (w +:+ String c EmptyString) 0 s'
          | S k =>
              if String.eqb w "" then split_go "" k s'
              else w :: split_go "" k s'
          end
      end
  end.
Definition split (s : string) : list string := split_go "" 0 s.

(** No white-space character starts within [s]. *)
Fixpoint no_space (s : string) : bool :=
  match s with
  | EmptyString => true
  | String _ s' => Nat.eqb (space_length s) 0 && no_space s'
  end.

(** A word: a non-empty string without white space. *)
Definition is_word (s : string) : Prop := s ≠ "" ∧ no_space s = true.

(** No white-space character starts within [w] when [s] follows it. *)
Fixpoint no_space_before (w s : string) : bool :=
  match w with
  | EmptyString => true
  | String c w' => Nat.eqb (space_length (w +:+ s)) 0 && no_space_before w' s
  end.

(** [sep.join(l)] *)
Definition join (sep : string) (l : list string) : string :=
  String.concat sep l.

(** [range(0, stop, step)] for a positive step *)
Definition range_step (stop step : nat) : list nat :=
  (fun k => k * step) <$> seq 0 ((stop + step - 1) / step).

End Py.

(** * Calls made on collaborators

    An operation of the dispatcher or of the router yields the sequence
    of calls it made on its collaborators, in order, and then its
    outcome.  The [async] functions of the sources run to completion one
    after the other inside one request, so a sequential trace loses
    nothing. *)
Module Trace.
Import Py.

Inductive event : Type :=
  | AnalyzeQuery (query : string)
      (* llm_router.analyze_query(query) *)
  | RouteMultiDomainQuery (query : string)
      (* llm_router.route_multi_domain_query(query, analysis, agents) *)
  | AgentProcessQuery (agent : string) (query : string)
      (* agent.process_query(query, ...) of the agent named [agent] *)
  | LogAgentInteraction (user_id : string) (agent_name : value).
      (* log_agent_interaction(user_id, agent_name, latency_ms) *)

Definition M (A : Type) : Type := list event * result A.

#[export] Instance M_ret : MRet M := fun A a => ([], Ok a).
#[export] Instance M_bind : MBind M := fun A B k m =>
  match m with
  | (t, Ok a) => let '(t', r) := k a in (t ++ t', r)
  | (t, Raise e) => (t, Raise e)
  end.

Definition emit (e : event) : M unit := ([e], Ok tt).
Definition lift {A} (r : result A) : M A := ([], r).
Definition calls {A} (m : M A) : list event := m.1.
Definition outcome {A} (m : M A) : result A := m.2.

End Trace.

(** * The agents ([agents/finance.py], [agents/code.py]) *)
Module Agents.
Import Py Trace.

(** A multi-line text, one list element per line. *)
Definition lines (l : list string) : string := join nl l.

Definition etf_text : string :=
  lines [
    "An ETF (Exchange-Traded Fund) is an investment fund that trades on stock exchanges like individual stocks. ETFs typically track an index, commodity, bonds, or a basket of assets. Key benefits include:";
    "";
    "• Diversification across many holdings";
    "• Lower expense ratios than mutual funds  ";
    "• Intraday trading flexibility";
    "• Tax efficiency";
    "• Transparency of holdings";
    "";
    "Popular ETFs include SPY (S&P 500), VTI (Total Stock Market), and QQQ (Nasdaq 100). They're excellent for passive investing strategies."
  ].

Definition invest_text : string :=
  lines [
    "Here are fundamental investment principles to consider:";
    "";
    "• Start early - compound interest is powerful";
    "• Diversify your portfolio across asset classes";
    "• Keep costs low with index funds/ETFs";
    "• Dollar-cost averaging reduces timing risk";
    "• Emergency fund before investing (3-6 months expenses)";
    "• Consider your risk tolerance and time horizon";
    "• Regular rebalancing maintains target allocation";
    "";
    "Popular beginner strategies include target-date funds or simple three-fund portfolios (US stocks, international stocks, bonds)."
  ].

Definition index_fund_text : string :=
  lines [
    "Index funds are mutual funds designed to track a specific market index like the S&P 500. Benefits include:";
    "";
    "• Broad market diversification";
    "• Low expense ratios (often under 0.1%)";
    "• Consistent market returns";
    "• No active management risk";
    "• Automatic rebalancing";
    "";
    "Popular options:";
    "• Vanguard Total Stock Market (VTSAX)";
    "• Fidelity Total Market (FZROX) ";
    "• Schwab Total Stock Market (SWTSX)";
    "";
    "Index funds are ideal for long-term, passive investing strategies."
  ].

Definition finance_default_text (query : string) : string :=
  lines [
    (("I'm FinanceAgent, specialized in financial advice. Your query: " +:+ dquote) +:+ query +:+ dquote);
    "";
    "I can help with:";
    "• Investment strategies and portfolio allocation";
    "• ETFs, mutual funds, and index fund selection";
    "• Retirement planning (401k, IRA, Roth IRA)";
    "• Market analysis and economic indicators";
    "• Personal finance and budgeting tips";
    "• Risk management and insurance";
    "";
    "Please feel free to ask specific financial questions!"
  ].

(** [FinanceAgent._generate_response] *)
Definition finance_generate_response (query : string) : string :=
  let query_lower := lower query in
  if contains "etf" query_lower then etf_text
  else if contains "invest" query_lower || contains "investment" query_lower
  then invest_text
  else if contains "index fund" query_lower then index_fund_text
  else finance_default_text query.

Definition rest_api_text : string :=
  lines [
    "Here's a simple Python REST API example using FastAPI:";
    "";
    "```python";
    "from fastapi import FastAPI, HTTPException";
    "from pydantic import BaseModel";
    "from typing import List, Optional";
    "";
    ("app = FastAPI(title=" +:+ dquote +:+ "My API" +:+ dquote +:+ ", version=" +:+ dquote +:+ "1.0.0" +:+ dquote +:+ ")");
    "";
    "# Data model";
    "class Item(BaseModel):";
    "    id: Optional[int] = None";
    "    name: str";
    "    description: Optional[str] = None";
    "    price: float";
    "";
    "# In-memory storage (use database in production)";
    "items = []";
    "next_id = 1";
    "";
    "# GET all items";
    ("@app.get(" +:+ dquote +:+ "/items" +:+ dquote +:+ ", response_model=List[Item])");
    "async def get_items():";
    "    return items";
    "";
    "# GET single item";
    ("@app.get(" +:+ dquote +:+ "/items/{item_id}" +:+ dquote +:+ ", response_model=Item)");
    "async def get_item(item_id: int):";
    "    for item in items:";
    "        if item.id == item_id:";
    "            return item";
    ("    raise HTTPException(status_code=404, detail=" +:+ dquote +:+ "Item not found" +:+ dquote +:+ ")");
    "";
    "# POST create item";
    ("@app.post(" +:+ dquote +:+ "/items" +:+ dquote +:+ ", response_model=Item)");
    "async def create_item(item: Item):";
    "    global next_id";
    "    item.id = next_id";
    "    next_id += 1";
    "    items.append(item)";
    "    return item";
    "";
    "# Run with: uvicorn main:app --reload";
    "```";
    "";
    "Key features:";
    "• Automatic OpenAPI/Swagger docs";
    "• Type hints and validation with Pydantic";
    "• Async support for better performance";
    "• Built-in HTTP exception handling"
  ].

Definition compound_interest_text : string :=
  lines [
    "Here's a compound interest calculation function:";
    "";
    "```python";
    "def calculate_compound_interest(";
    "    principal: float,";
    "    annual_rate: float,";
    "    compounds_per_year: int = 12,";
    "    years: float = 1.0";
    ") -> dict:";
    ("    " +:+ dquote +:+ dquote +:+ dquote);
    "    Calculate compound interest.";
    "    ";
    "    Args:";
    "        principal: Initial investment amount";
    "        annual_rate: Annual interest rate (as decimal, e.g., 0.05 for 5%)";
    "        compounds_per_year: How often interest compounds (12 = monthly)";
    "        years: Investment period in years";
    "    ";
    "    Returns:";
    "        Dictionary with calculation results";
    ("    " +:+ dquote +:+ dquote +:+ dquote);
    "    # A = P(1 + r/n)^(nt)";
    "    amount = principal * (1 + annual_rate / compounds_per_year) ** (compounds_per_year * years)";
    "    interest_earned = amount - principal";
    "    ";
    "    return {";
    ("        " +:+ dquote +:+ "principal" +:+ dquote +:+ ": principal,");
    ("        " +:+ dquote +:+ "final_amount" +:+ dquote +:+ ": round(amount, 2),");
    ("        " +:+ dquote +:+ "interest_earned" +:+ dquote +:+ ": round(interest_earned, 2),");
    ("        " +:+ dquote +:+ "effective_rate" +:+ dquote +:+ ": round((amount / principal - 1) * 100, 2),");
    ("        " +:+ dquote +:+ "years" +:+ dquote +:+ ": years,");
    ("        " +:+ dquote +:+ "compounds_per_year" +:+ dquote +:+ ": compounds_per_year");
    "    }";
    "";
    "# Example usage:";
    "result = calculate_compound_interest(";
    "    principal=10000,      # $10,000 initial";
    "    annual_rate=0.07,     # 7% annual rate";
    "    compounds_per_year=12, # Monthly compounding";
    "    years=5               # 5 years";
    ")";
    ("print(f" +:+ dquote +:+ "${result['principal']:,} becomes ${result['final_amount']:,}" +:+ dquote +:+ ")");
    ("print(f" +:+ dquote +:+ "Interest earned: ${result['interest_earned']:,}" +:+ dquote +:+ ")");
    "```";
    "";
    "This handles monthly compounding by default but allows customization."
  ].

Definition sorting_text : string :=
  lines [
    "Here are common sorting algorithms in Python:";
    "";
    "```python";
    "def bubble_sort(arr):";
    ("    " +:+ dquote +:+ dquote +:+ dquote +:+ "Simple but inefficient O(n²) sorting." +:+ dquote +:+ dquote +:+ dquote);
    "    n = len(arr)";
    "    for i in range(n):";
    "        for j in range(0, n - i - 1):";
    "            if arr[j] > arr[j + 1]:";
    "                arr[j], arr[j + 1] = arr[j + 1], arr[j]";
    "    return arr";
    "";
    "def quick_sort(arr):";
    ("    " +:+ dquote +:+ dquote +:+ dquote +:+ "Efficient O(n log n) average case sorting." +:+ dquote +:+ dquote +:+ dquote);
    "    if len(arr) <= 1:";
    "        return arr";
    "    ";
    "    pivot = arr[len(arr) // 2]";
    "    left = [x for x in arr if x < pivot]";
    "    middle = [x for x in arr if x == pivot]";
    "    right = [x for x in arr if x > pivot]";
    "    ";
    "    return quick_sort(left) + middle + quick_sort(right)";
    "";
    "def merge_sort(arr):";
    ("    " +:+ dquote +:+ dquote +:+ dquote +:+ "Stable O(n log n) sorting algorithm." +:+ dquote +:+ dquote +:+ dquote);
    "    if len(arr) <= 1:";
    "        return arr";
    "    ";
    "    mid = len(arr) // 2";
    "    left = merge_sort(arr[:mid])";
    "    right = merge_sort(arr[mid:])";
    "    ";
    "    return merge(left, right)";
    "";
    "def merge(left, right):";
    "    result = []";
    "    i = j = 0";
    "    ";
    "    while i < len(left) and j < len(right):";
    "        if left[i] <= right[j]:";
    "            result.append(left[i])";
    "            i += 1";
    "        else:";
    "            result.append(right[j])";
    "            j += 1";
    "    ";
    "    result.extend(left[i:])";
    "    result.extend(right[j:])";
    "    return result";
    "";
    "# Usage:";
    "numbers = [64, 34, 25, 12, 22, 11, 90]";
    ("print(" +:+ dquote +:+ "Quick sort:" +:+ dquote +:+ ", quick_sort(numbers.copy()))");
    ("print(" +:+ dquote +:+ "Merge sort:" +:+ dquote +:+ ", merge_sort(numbers.copy()))");
    "```";
    "";
    "• Bubble sort: Simple, educational";
    "• Quick sort: Fast average case";
    "• Merge sort: Guaranteed O(n log n), stable"
  ].

Definition code_default_text (query : string) : string :=
  lines [
    (("I'm CodeAgent, specialized in programming and software development. Your query: " +:+ dquote) +:+ query +:+ dquote);
    "";
    "I can help with:";
    "• Python, JavaScript, Java, C++ code examples";
    "• REST API design and implementation";
    "• Algorithm explanations and implementations";
    "• Database queries and design patterns";
    "• Code optimization and best practices";
    "• Framework-specific guidance (FastAPI, Django, React, etc.)";
    "• Debugging and troubleshooting";
    "";
    "Please ask specific programming questions and I'll provide detailed code examples!"
  ].

(** [CodeAgent._generate_response] *)
Definition code_generate_response (query : string) : string :=
  let query_lower := lower query in
  if contains "python rest api" query_lower || contains "rest api" query_lower
  then rest_api_text
  else if contains "function" query_lower
          && contains "compound interest" query_lower
  then compound_interest_text
  else if contains "algorithm" query_lower || contains "sort" query_lower
  then sorting_text
  else code_default_text query.

(** An agent: its name and the text it answers a query with.  The
    simulated processing delay and the logging of [process_query] leave
    the response unchanged. *)
Record Agent : Type := {
  name : string;
  _generate_response : string → string
}.

Definition FinanceAgent : Agent :=
  {| name := "FinanceAgent"; _generate_response := finance_generate_response |}.

Definition CodeAgent : Agent :=
  {| name := "CodeAgent"; _generate_response := code_generate_response |}.

(** [agent.process_query(query, context)]; the context is not read. *)
Definition process_query (agent : Agent) (query : string) : M string :=
  _ ← emit (AgentProcessQuery (name agent) query);
  mret (_generate_response agent query).

(** [agents[key]] for a registry with string keys: the agent found,
    together with the key, which is then known to be a string. *)
Definition registry_getitem (agents : gmap string Agent) (key : value)
    : result (string * Agent) :=
  match key with
  | VList _ | VDict _ => Raise TypeError
  | VStr s =>
      match agents !! s with
      | Some a => Ok (s, a)
      | None => Raise KeyError
      end
  | _ => Raise KeyError
  end.

(** [key in agents] *)
Definition registry_contains (agents : gmap string Agent) (key : value)
    : result bool :=
  match key with
  | VList _ | VDict _ => Raise TypeError
  | VStr s => Ok (bool_decide (is_Some (agents !! s)))
  | _ => Ok false
  end.

End Agents.

(** * The router ([core/llm_router.py]) *)
Module LLMRouter.
Import Py Trace Agents.

(** ** Validation of an analysis: [_validate_analysis] *)

Definition valid_agents : list string := ["finance"; "code"].

(** [a == b] for a string [a] *)
Definition str_eq_value (a b : value) : bool :=
  match a with
  | VStr s => eq_str b s
  | _ => false
  end.

(** The condition of the comprehension over the secondary agents,
    [agent in valid_agents and agent != validated["primary_agent"]];
    the right operand is evaluated on members of [valid_agents] only,
    which are strings. *)
Definition keep_secondary (primary_agent agent : value) : result bool :=
  known ← in_str_keys agent valid_agents;
  mret ((known : bool) && negb (str_eq_value agent primary_agent)).

(** [max(0.0, min(1.0, c))] *)
Definition clamp_confidence (c : value) : result value :=
  capped ← min (VFloat 1.0) c;
  max (VFloat 0.0) capped.

(** The condition of the comprehension on values that can be hashed,
    where it cannot raise. *)
Definition is_secondary (primary_agent agent : value) : bool :=
  existsb (eq_str agent) valid_agents
  && negb (str_eq_value agent primary_agent).

Definition _validate_analysis (analysis : gmap string value)
    : result (gmap string value) :=
  (* Set defaults for required fields *)
  confidence ← clamp_confidence (get analysis "confidence" (VFloat 0.5));
  let validated := dict_of_items [
    ("primary_agent", get analysis "primary_agent" (VStr "finance"));
    ("confidence", confidence);
    ("is_multi_domain", get analysis "is_multi_domain" (VBool false));
    ("secondary_agents", get analysis "secondary_agents" (VList []));
    ("reasoning", get analysis "reasoning" (VStr "Default routing"));
    ("query_type", get analysis "query_type" (VStr "simple"));
    ("key_topics", get analysis "key_topics" (VList []))
  ] in
  (* Validate primary_agent *)
  primary_agent ← getitem validated "primary_agent";
  let validated :=
    if negb (in_str_list primary_agent ["finance"; "code"])
    then <["confidence" := VFloat 0.3]>
           (<["primary_agent" := VStr "finance"]> validated)
    else validated in
  (* Validate secondary_agents *)
  secondary_agents ← getitem validated "secondary_agents";
  primary_agent ← getitem validated "primary_agent";
  agents ← iter secondary_agents;
  kept ← filterM (keep_secondary primary_agent) agents;
  mret (<["secondary_agents" := VList kept]> validated).

(** The primary agent after validation: the one of the analysis when it
    is a registered one, the default agent otherwise. *)
Definition effective_primary (analysis : gmap string value) : value :=
  let p := get analysis "primary_agent" (VStr "finance") in
  if in_str_list p valid_agents then p else VStr "finance".

(** The shape of a validated analysis: the three validated fields, and
    the four fields taken over from the analysis or defaulted. *)
Definition decision_of (analysis : gmap string value)
    (primary confidence secondary : value) : gmap string value :=
  dict_of_items [
    ("primary_agent", primary);
    ("confidence", confidence);
    ("is_multi_domain", get analysis "is_multi_domain" (VBool false));
    ("secondary_agents", secondary);
    ("reasoning", get analysis "reasoning" (VStr "Default routing"));
    ("query_type", get analysis "query_type" (VStr "simple"));
    ("key_topics", get analysis "key_topics" (VList []))
  ].

(** ** Keyword routing: [_fallback_analysis] *)

Definition finance_keywords : list string := [
  "etf"; "invest"; "investment"; "stock"; "bond"; "portfolio";
  "index fund"; "mutual fund"; "401k"; "ira"; "retirement";
  "dividend"; "compound interest"; "savings"; "budget"; "financial";
  "money"; "market"; "economy"; "tax"; "wealth"; "trading"; "trade";
  "trader"; "bot"; "algorithm trading"; "forex"; "crypto"; "price";
  "profit"; "loss"; "risk"; "strategy"; "analysis"; "buy"; "sell";
  "broker"; "exchange"; "volatility"; "return"; "yield"
].

Definition code_keywords : list string := [
  "python"; "javascript"; "java"; "code"; "function"; "api";
  "algorithm"; "programming"; "software"; "debug"; "framework";
  "database"; "sql"; "rest"; "web development"; "class"; "git";
  "docker"; "deploy"; "server"; "client"; "frontend"; "backend";
  "bot"; "script"; "automation"; "library"; "package"; "build";
  "develop"; "implementation"; "logic"; "data"; "scraping"
].

(** [sum(1 for keyword in keywords if keyword in query_lower)] *)
Definition keyword_score (keywords : list string) (query_lower : string)
    : Z :=
  foldr Z.add 0%Z
    ((fun _ => 1%Z) <$>
     List.filter (fun keyword => contains keyword query_lower) keywords).

Definition finance_score (query : string) : Z :=
  keyword_score finance_keywords (lower query).

Definition code_score (query : string) : Z :=
  keyword_score code_keywords (lower query).

(** [min(0.8, 0.4 + (score * 0.1))] *)
Definition keyword_confidence (score : Z) : float :=
  fmin 0.8 (0.4 + (float_of_Z score * 0.1)).

Definition _fallback_analysis (query : string) : gmap string value :=
  let finance_score := finance_score query in
  let code_score := code_score query in
  let '(primary, confidence) :=
    if (code_score <? finance_score)%Z
    then ("finance", keyword_confidence finance_score)
    else if (finance_score <? code_score)%Z
    then ("code", keyword_confidence code_score)
    else
      (* Default to finance for ambiguous queries *)
      ("finance", 0.3%float) in
  let is_multi_domain := (0 <? finance_score)%Z && (0 <? code_score)%Z in
  let secondary_agents :=
    if is_multi_domain
    then [VStr (if String.eqb primary "finance" then "code" else "finance")]
    else [] in
  dict_of_items [
    ("primary_agent", VStr primary);
    ("confidence", VFloat confidence);
    ("is_multi_domain", VBool is_multi_domain);
    ("secondary_agents", VList secondary_agents);
    ("reasoning", VStr "Keyword-based routing (fallback mode)");
    ("query_type", VStr "simple");
    ("key_topics", VList [])
  ].

(** ** [analyze_query]

    The router is either disabled (no API key) or enabled.  What the
    hosted model answers is an input of the program: [reply query] is the
    outcome of sending the prompt built from [query] and of parsing the
    answer with [json.loads], an exception when either fails. *)
Record t : Type := {
  enabled : bool;
  reply : string → result value
}.

(** The router [__init__] builds when no API key is configured; the
    hosted model is never asked. *)
Definition disabled : t := {|
  enabled := false;
  reply := fun _ => Raise ServiceError
|}.

(** [analysis.get] exists on dictionaries only. *)
Definition as_dict (v : value) : result (gmap string value) :=
  match v with
  | VDict items => Ok (dict_of_items items)
  | _ => Raise AttributeError
  end.

Definition analyze_query (self : t) (query : string) : gmap string value :=
  if negb (enabled self) then _fallback_analysis query
  else
    let attempt :=
      parsed ← reply self query;
      analysis ← as_dict parsed;
      (* Validate and clean the response *)
      analysis ← _validate_analysis analysis;
      _ ← getitem analysis "primary_agent";
      _ ← getitem analysis "confidence";
      mret analysis in
    match attempt with
    | Ok analysis => analysis
    | Raise _ => _fallback_analysis query
    end.

(** The invariant of a routing decision: a registered primary agent, a
    confidence within [0.0, 1.0], secondary agents that are registered and
    differ from the primary one, and an [is_multi_domain] field. *)
Definition well_formed_decision (decision : gmap string value) : Prop :=
  ∃ (p : string) (f : float) (l : list value),
    decision !! "primary_agent" = Some (VStr p) ∧
    p ∈ valid_agents ∧
    decision !! "confidence" = Some (VFloat f) ∧
    in_unit_interval f ∧
    decision !! "secondary_agents" = Some (VList l) ∧
    Forall (fun agent => ∃ s, agent = VStr s ∧ s ∈ valid_agents ∧ s ≠ p) l ∧
    is_Some (decision !! "is_multi_domain").

(** ** Multi-domain queries *)

Definition _combine_multi_domain_responses
    (query : string) (primary_agent : string) (primary_response : string)
    (secondary_responses : list (string * string)) : string :=
  (* If no secondary responses, return enhanced primary *)
  match secondary_responses with
  | [] => primary_response
  | _ =>
      let combined := "**Multi-Domain Analysis for: " +:+ query +:+ "**" +:+ nl +:+ nl in
      let agent_title :=
        if String.eqb primary_agent "code" then "Technical Implementation"
        else "Financial Analysis" in
      let combined := combined +:+ "## " +:+ agent_title +:+ " (Primary Focus)" +:+ nl +:+ nl in
      let combined := combined +:+ primary_response +:+ nl +:+ nl in
      let combined :=
        fold_left (fun combined resp =>
          let agent_title :=
            if String.eqb resp.1 "finance" then "Financial Considerations"
            else "Technical Considerations" in
          let combined := combined +:+ "## " +:+ agent_title +:+ " (Additional Context)" +:+ nl +:+ nl in
          combined +:+ resp.2 +:+ nl +:+ nl) secondary_responses combined in
      let combined := combined +:+ "---" +:+ nl in
      let combined := combined +:+ "*Note: This query spans multiple domains (" +:+ primary_agent +:+ " + " +:+ join ", " (fst <$> secondary_responses) +:+ "). " in
      combined +:+ "The above analysis covers both technical and financial aspects to provide a comprehensive answer.*"
  end.

(** The strings among a sequence of values. *)
Definition agent_keys (l : list value) : list string :=
  omap (fun v => match v with VStr s => Some s | _ => None end) l.

(** One iteration of the loop over the secondary responses: the section
    appended for the response [resp] of agent [agent]. *)
Definition secondary_section (agent resp : string) : string :=
  "## " +:+ (if String.eqb agent "finance" then "Financial Considerations"
             else "Technical Considerations")
  +:+ " (Additional Context)" +:+ nl +:+ nl +:+ resp +:+ nl +:+ nl.

(** [get_routing_stats] *)
Definition get_routing_stats (self : t) : gmap string value :=
  dict_of_items [
    ("llm_enabled", VBool (enabled self));
    ("fallback_mode", VBool (negb (enabled self)));
    ("model", VStr (if enabled self then "gemini-pro" else "keyword-based"))
  ].

(** The loop over the secondary agents: each one that is registered is
    asked, in order. *)
Fixpoint secondary_responses (agents : gmap string Agent) (query : string)
    (secondary_agents : list value) : M (list (string * string)) :=
  match secondary_agents with
  | [] => mret []
  | secondary_agent :: rest =>
      known ← lift (registry_contains agents secondary_agent);
      if known : bool then
        '(key, agent) ← lift (registry_getitem agents secondary_agent);
        secondary_response ← process_query agent query;
        responses ← secondary_responses agents query rest;
        mret ((key, secondary_response) :: responses)
      else secondary_responses agents query rest
  end.

Definition route_multi_domain_query (query : string)
    (analysis : gmap string value) (agents : gmap string Agent) : M string :=
  primary_agent ← lift (getitem analysis "primary_agent");
  is_multi_domain ← lift (getitem analysis "is_multi_domain");
  if negb (truthy is_multi_domain) then
    (* Single domain - route to primary agent *)
    '(_, agent) ← lift (registry_getitem agents primary_agent);
    process_query agent query
  else
    (* Get primary agent response *)
    '(primary_key, agent) ← lift (registry_getitem agents primary_agent);
    primary_response ← process_query agent query;
    (* also get responses from secondary agents *)
    secondary_agents ← lift (getitem analysis "secondary_agents");
    responses ←
      (if truthy secondary_agents then
         elems ← lift (iter secondary_agents);
         secondary_responses agents query elems
       else mret []);
    mret (_combine_multi_domain_responses
            query primary_key primary_response responses).

End LLMRouter.

(** * The dispatcher ([core/orchestrator.py]) *)
Module Orchestrator.
Import Py Trace Agents.

(** What the dispatcher asks of its router.  [core/vertex_llm_router.py],
    whose [VertexLLMRouter] the dispatcher instantiates, is not among the
    sources, so the dispatcher is modelled over any router with these two
    operations; [of_LLMRouter] is the router of [core/llm_router.py]. *)
Record Router : Type := {
  analyze_query : string → result (gmap string value);
  route_multi_domain_query :
    string → gmap string value → gmap string Agent → M string
}.

Definition of_LLMRouter (r : LLMRouter.t) : Router := {|
  analyze_query query := Ok (LLMRouter.analyze_query r query);
  route_multi_domain_query := LLMRouter.route_multi_domain_query
|}.

(** The [context] argument: absent, a bare model name, or a dictionary. *)
Inductive context_arg : Type :=
  | CtxNone
  | CtxStr (s : string)
  | CtxDict (d : gmap string value).

(** [self.agents], fixed by [__init__] *)
Definition agents : gmap string Agent :=
  <["code" := CodeAgent]> (<["finance" := FinanceAgent]> ∅).

(** The agent registered under a name ([FinanceAgent] stands for the
    names that are not registered, which are never looked up this way). *)
Definition registered_agent (key : string) : Agent :=
  default FinanceAgent (agents !! key).

(** [self.routing_patterns] *)
Definition routing_patterns_finance : list string := [
  "etf"; "invest"; "investment"; "stock"; "bond"; "portfolio";
  "index fund"; "mutual fund"; "401k"; "ira"; "retirement";
  "dividend"; "compound interest"; "savings"; "budget"
].

Definition routing_patterns_code : list string := [
  "python"; "javascript"; "java"; "code"; "function"; "api";
  "algorithm"; "programming"; "software"; "debug"; "framework";
  "database"; "sql"; "rest"; "web development"; "class"
].

(** [route_query] (legacy method): the first loop returns at the first
    finance pattern found, the second at the first code pattern. *)
Definition route_query (query : string) : string :=
  let query_lower := lower query in
  if existsb (fun pattern => contains pattern query_lower)
       routing_patterns_finance
  then "finance"
  else if existsb (fun pattern => contains pattern query_lower)
            routing_patterns_code
  then "code"
  else
    (* Default to finance for general queries *)
    "finance".

(** [x or "anonymous"] *)
Definition or_anonymous (user_id : option string) : string :=
  match user_id with
  | Some s => if String.eqb s "" then "anonymous" else s
  | None => "anonymous"
  end.

(** The truth value of a dictionary: non-empty. *)
Definition dict_truthy (d : gmap string value) : bool :=
  negb (bool_decide (d = ∅)).

(** [context] once it is ensured to be a dictionary *)
Definition context_dict (context : context_arg) : gmap string value :=
  match context with
  | CtxNone => ∅
  | CtxStr s => <["model" := VStr s]> ∅
  | CtxDict d => d
  end.

(** [context.get("model", "")] *)
Definition requested_model (context : context_arg) : value :=
  get (context_dict context) "model" (VStr "").

(** The context requests one of the two reserved model names. *)
Definition reserved_model (context : context_arg) : bool :=
  eq_str (requested_model context) "finance-agent"
  || eq_str (requested_model context) "code-agent".

Section Dispatch.
Variable llm_router : Router.

Definition route_query_intelligent (query : string)
    : M (gmap string value) :=
  _ ← emit (AnalyzeQuery query);
  lift (analyze_query llm_router query).

(** The local variables set by the choice of the agent. *)
Record routing : Type := {
  agent_name : value;
  routing_method : string;
  routing_analysis : option (gmap string value)
}.

Definition process_query (query : string) (user_id : option string)
    (context : context_arg) : M string :=
  (* Check if a specific model/agent was requested *)
  let requested_model := requested_model context in
  r ←
    (if eq_str requested_model "finance-agent" then
       mret {| agent_name := VStr "finance"; routing_method := "explicit";
               routing_analysis := None |}
     else if eq_str requested_model "code-agent" then
       mret {| agent_name := VStr "code"; routing_method := "explicit";
               routing_analysis := None |}
     else
       (* Use intelligent LLM routing *)
       analysis ← route_query_intelligent query;
       primary ← lift (getitem analysis "primary_agent");
       mret {| agent_name := primary; routing_method := "intelligent";
               routing_analysis := Some analysis |});
  let single : M string :=
    (* Single domain - route to primary agent *)
    '(_, agent) ← lift (registry_getitem agents (agent_name r));
    Agents.process_query agent query in
  response ←
    match routing_analysis r with
    | Some analysis =>
        (* Handle multi-domain queries if LLM routing detected them *)
        if dict_truthy analysis
           && truthy (get analysis "is_multi_domain" (VBool false))
        then
          _ ← emit (RouteMultiDomainQuery query);
          route_multi_domain_query llm_router query analysis agents
        else single
    | None => single
    end;
  (* Log metrics *)
  _ ← emit (LogAgentInteraction (or_anonymous user_id) (agent_name r));
  mret response.

(** The chunk yielded at index [i] of the word list. *)
Definition chunk_at (words : list string) (chunk_size i : nat) : string :=
  let chunk := join " " (take chunk_size (drop i words)) in
  if (i + chunk_size <? length words)%nat then chunk +:+ " " else chunk.

(** The chunks yielded by
    [for i in range(0, len(words), chunk_size): ... yield chunk]. *)
Definition chunks_of (words : list string) (chunk_size : nat) : list string :=
  chunk_at words chunk_size <$> range_step (length words) chunk_size.

(** The chunks the generator yields for a complete response. *)
Definition stream_chunks (response : string) : list string :=
  (* Split response into words for streaming simulation *)
  let words := split response in
  let chunk_size := 5%nat in
  chunks_of words chunk_size.

(** [process_query_stream]: the chunks yielded when the generator is
    consumed to its end.  The response is computed in full before the
    first chunk, so an exception leaves no chunk behind. *)
Definition process_query_stream (query : string) (user_id : option string)
    (context : context_arg) : M (list string) :=
  response ← process_query query user_id context;
  mret (stream_chunks response).

End Dispatch.
End Orchestrator.

(** * The chat endpoint ([api/routes.py], [api/models.py]) *)
Module Routes.
Import Py Trace Agents.

Record ChatMessage : Type := {
  role : string;
  content : string
}.

Record ChatCompletionRequest : Type := {
  messages : list ChatMessage;
  model : option string;
  temperature : option float;
  max_tokens : option Z;
  stream : option bool;
  stop : option (string + list string)
}.

Record ChatCompletionChoice : Type := {
  index : Z;
  message : ChatMessage;
  finish_reason : string
}.

Record ChatCompletionResponse : Type := {
  id : string;
  object : string;
  created : Z;
  response_model : string;
  choices : list ChatCompletionChoice;
  usage : list (string * Z)
}.

(** One server-sent event of a streamed completion. *)
Inductive stream_event : Type :=
  | ChunkEvent (id : string) (created : Z) (model : option string)
      (delta_content : option string) (finish_reason : option string)
  | DoneEvent.

Inductive response : Type :=
  | Completion (r : ChatCompletionResponse)
  | StreamingResponse (events : M (list stream_event)).

(** [try: body except Exception as e: handler(e)]; every exception of
    the model derives from [Exception], [HTTPException] included. *)
Definition try_except {A} (body : M A) (handler : exn → M A) : M A :=
  match body with
  | (t, Ok a) => (t, Ok a)
  | (t, Raise e) => let '(t', r) := handler e in (t ++ t', r)
  end.

Definition raise {A} (e : exn) : M A := lift (Raise e).

(** [request.model] as a dictionary value: a string or [None]. *)
Definition value_of_model (model : option string) : value :=
  match model with
  | Some s => VStr s
  | None => VNone
  end.

Section Endpoint.
Variable llm_router : Orchestrator.Router.
(** [str(e)]: the message of an exception, given by the runtime. *)
Variable exn_str : exn → string.

Definition stream_chat_response (request_id user_message : string)
    (model : option string) (created_time : Z)
    (context : Orchestrator.context_arg) : M (list stream_event) :=
  try_except
    (chunks ← Orchestrator.process_query_stream llm_router
                user_message (Some request_id) context;
     mret (((fun chunk =>
               ChunkEvent request_id created_time model (Some chunk) None)
            <$> chunks)
           ++ [ChunkEvent request_id created_time model None (Some "stop");
               DoneEvent]))
    (fun e =>
       mret [ChunkEvent request_id created_time model
               (Some ("Error: " +:+ exn_str e)) (Some "error");
             DoneEvent]).

(** [chat_completions]; the request id and the creation time are drawn
    from [uuid] and the clock, and are arguments here. *)
Definition chat_completions (request_id : string) (created_time : Z)
    (request : ChatCompletionRequest) : M response :=
  try_except
    ((* Extract the user's message *)
     user_message ←
       match last (messages request) with
       | None => raise (HTTPException 400 "Messages cannot be empty")
       | Some m => mret (content m)
       end;
     let context :=
       Orchestrator.CtxDict
         (<["model" := value_of_model (model request)]> ∅) in
     if default false (stream request) then
       mret (StreamingResponse
               (stream_chat_response request_id user_message (model request)
                  created_time context))
     else
       response_content ←
         Orchestrator.process_query llm_router user_message
           (Some request_id) context;
       match model request with
       | None => raise ValidationError  (* the response's model is a string *)
       | Some model =>
           let prompt_tokens := Z.of_nat (length (split user_message)) in
           let completion_tokens :=
             Z.of_nat (length (split response_content)) in
           mret (Completion {|
             id := request_id;
             object := "chat.completion";
             created := created_time;
             response_model := model;
             choices := [ {| index := 0;
                             message := {| role := "assistant";
                                           content := response_content |};
                             finish_reason := "stop" |} ];
             usage := [ ("prompt_tokens", prompt_tokens);
                        ("completion_tokens", completion_tokens);
                        ("total_tokens",
                         (prompt_tokens + completion_tokens)%Z) ]
           |})
       end)
    (fun e =>
       raise (HTTPException 500 ("Internal server error: " +:+ exn_str e))).

End Endpoint.
End Routes.

(** * The routing endpoints ([api/routing_routes.py]) *)
Module RoutingRoutes.
Import Py Trace Agents.

Record QueryAnalysisResponse : Type := {
  query : string;
  analysis : gmap string value;
  routing_stats : gmap string value
}.



Section Endpoints.
Variable llm_router : Orchestrator.Router.
(** [orchestrator.llm_router.get_routing_stats()], of the router that is
    not among the sources: the dictionary it returns, or the exception it
    raises. *)
Variable get_routing_stats : result (gmap string value).
Variable exn_str : exn → string.

(** [analyze_query]: [POST /routing/analyze] *)
Definition analyze_query (request_query : string) : M QueryAnalysisResponse :=
  Routes.try_except
    ((* Get routing analysis *)
     analysis ← Orchestrator.route_query_intelligent llm_router request_query;
     (* Get routing stats *)
     stats ← lift get_routing_stats;
     (* the log line reads analysis["primary_agent"] *)
     _ ← lift (getitem analysis "primary_agent");
     mret {| query := request_query; analysis := analysis;
             routing_stats := stats |})
    (fun e =>
       Routes.raise (HTTPException 500 ("Analysis failed: " +:+ exn_str e))).




End Endpoints.


End RoutingRoutes.

(** * Properties *)

Import Py Trace Agents LLMRouter.

(** ** Floats and the clamp *)

(** On floats, [<] implies [<=] (neither holds of a NaN). *)
Lemma float_ltb_leb (x y : float) :
  (x <? y)%float = true → (x <=? y)%float = true.
Proof.
  rewrite ltb_spec, leb_spec. unfold SFltb, SFleb.
  by destruct (SFcompare _ _) as [[]|].
Qed.

(** A sequence of two steps returns only if both do. *)
Lemma bind_Ok {A B} (r : result A) (k : A → result B) (b : B) :
  r ≫= k = Ok b → ∃ a, r = Ok a ∧ k a = Ok b.
Proof. destruct r as [a|e]; [by exists a | done]. Qed.

(** Comparing the float 1.0 with an int is comparing 1 with it. *)
Lemma float_Z_compare_one z :
  float_Z_compare 1 z = Some (1 ?= z)%Z.
Proof.
  unfold float_Z_compare.
  change (Prim2SF 1) with (S754_finite false 4503599627370496 (-52)).
  cbv beta iota. change (0 <=? -52)%Z with false. cbv iota.
  f_equal. change (- -52)%Z with 52%Z.
  change (Z.pos 4503599627370496) with (1 * 2 ^ 52)%Z.
  symmetry. by apply Zmult_compare_compat_r.
Qed.

(** What the clamp returns is a float of the unit interval, which the
    clamp leaves as it is. *)
Lemma clamp_confidence_Ok c r :
  clamp_confidence c = Ok r →
  ∃ f, r = VFloat f ∧ in_unit_interval f ∧
       clamp_confidence (VFloat f) = Ok (VFloat f).
Proof.
  unfold clamp_confidence, min, max, lt.
  destruct c as [|b|z|x| | |]; simpl; try done.
  - destruct b; simpl; intros [= <-]; eexists; repeat split; reflexivity.
  - rewrite float_Z_compare_one.
    destruct (Z.compare_spec 1 z) as [?|?|Hz]; simpl.
    1,2: intros [= <-]; eexists; repeat split; reflexivity.
    destruct z as [|p|p]; try lia; simpl;
      intros [= <-]; eexists; repeat split; reflexivity.
  - destruct (x <? 1)%float eqn:H1; simpl.
    + destruct (0 <? x)%float eqn:H0; simpl; intros [= <-].
      * exists x. repeat split; try by apply float_ltb_leb.
        simpl. rewrite H1. simpl. by rewrite H0.
      * eexists; repeat split; reflexivity.
    + intros [= <-]; eexists; repeat split; reflexivity.
Qed.

(** The decision the validation step returns, field by field. *)
Lemma validate_inv analysis validated :
  _validate_analysis analysis = Ok validated →
  ∃ c elems kept,
    clamp_confidence (get analysis "confidence" (VFloat 0.5)) = Ok c ∧
    iter (get analysis "secondary_agents" (VList [])) = Ok elems ∧
    filterM (keep_secondary (effective_primary analysis)) elems = Ok kept ∧
    validated =
      decision_of analysis (effective_primary analysis)
        (if in_str_list (get analysis "primary_agent" (VStr "finance"))
              valid_agents
         then c else VFloat 0.3)
        (VList kept).
Proof.
  unfold _validate_analysis, effective_primary.
  intros (c & Hc & H)%bind_Ok. exists c. revert H.
  set (p := get analysis "primary_agent" (VStr "finance")).
  set (sec := get analysis "secondary_agents" (VList [])).
  change (getitem (dict_of_items _) "primary_agent") with (Ok p).
  cbn [mbind result_bind].
  change (in_str_list p ["finance"; "code"]) with (in_str_list p valid_agents).
  destruct (in_str_list p valid_agents); cbn [negb].
  - change (getitem (dict_of_items _) "secondary_agents") with (Ok sec).
    change (getitem (dict_of_items _) "primary_agent") with (Ok p).
    cbn [mbind result_bind].
    intros (elems & He & (kept & Hk & [= <-])%bind_Ok)%bind_Ok.
    by exists elems, kept.
  - change (getitem (insert _ _ _) "secondary_agents") with (Ok sec).
    change (getitem (insert _ _ _) "primary_agent") with (Ok (VStr "finance")).
    cbn [mbind result_bind].
    intros (elems & He & (kept & Hk & [= <-])%bind_Ok)%bind_Ok.
    by exists elems, kept.
Qed.

Lemma existsb_eq_str_valid s :
  existsb (eq_str (VStr s)) valid_agents = true ↔ s ∈ valid_agents.
Proof.
  unfold valid_agents. simpl.
  rewrite !orb_true_iff, !String.eqb_eq, !elem_of_cons, elem_of_nil.
  intuition discriminate.
Qed.

Lemma str_eq_value_false s p :
  str_eq_value (VStr s) p = false ↔ p ≠ VStr s.
Proof.
  destruct p as [| | | |t| |]; simpl; try done.
  rewrite String.eqb_neq. split; congruence.
Qed.

Lemma is_secondary_true p x :
  is_secondary p x = true ↔
  ∃ s, x = VStr s ∧ s ∈ valid_agents ∧ p ≠ VStr s.
Proof.
  unfold is_secondary. rewrite andb_true_iff, negb_true_iff. split.
  - intros [Hin Hne]. destruct x as [| | | |s| |]; try done.
    exists s. by rewrite <-existsb_eq_str_valid, <-str_eq_value_false.
  - intros (s & -> & Hs & Hp).
    by rewrite existsb_eq_str_valid, str_eq_value_false.
Qed.

(** When the comprehension returns, it is a plain filter and every
    element it met could be hashed. *)
Lemma filterM_keep_secondary_Ok p elems kept :
  filterM (keep_secondary p) elems = Ok kept →
  kept = List.filter (is_secondary p) elems ∧
  Forall (λ x, hashable x = true) elems.
Proof.
  revert kept. induction elems as [|x elems IH]; intros kept; simpl.
  - by intros [= <-].
  - intros (b & Hb & (r & Hr & [= <-])%bind_Ok)%bind_Ok.
    destruct (IH r Hr) as [-> Hall].
    unfold keep_secondary in Hb. unfold is_secondary.
    destruct x; simpl in Hb; try done; injection Hb as <-;
      (split; [done | by constructor]).
Qed.

Lemma filterM_keep_secondary_total p elems :
  Forall (λ x, hashable x = true) elems →
  filterM (keep_secondary p) elems = Ok (List.filter (is_secondary p) elems).
Proof.
  induction 1 as [|x elems Hx _ IH]; simpl; [done|].
  rewrite IH. unfold keep_secondary, is_secondary.
  by destruct x.
Qed.

Lemma filter_is_secondary_hashable p elems :
  Forall (λ x, hashable x = true) (List.filter (is_secondary p) elems).
Proof.
  apply Forall_forall. intros x [_ Hx]%list_elem_of_In%filter_In.
  apply is_secondary_true in Hx as (s & -> & _). done.
Qed.

Lemma filter_filter_same {A} (f : A → bool) l :
  List.filter f (List.filter f l) = List.filter f l.
Proof.
  induction l as [|x l IH]; simpl; [done|].
  destruct (f x) eqn:E; simpl; rewrite ?E, IH; done.
Qed.

Lemma effective_primary_known analysis :
  in_str_list (effective_primary analysis) valid_agents = true.
Proof.
  unfold effective_primary.
  destruct (in_str_list (get analysis "primary_agent" _) _) eqn:E; done.
Qed.

Lemma in_str_list_valid p :
  in_str_list p valid_agents = true ↔ ∃ s, p = VStr s ∧ s ∈ valid_agents.
Proof.
  unfold in_str_list. split.
  - destruct p as [| | | |s| |]; try done. intros H. exists s.
    by rewrite <-existsb_eq_str_valid.
  - intros (s & -> & Hs). by rewrite existsb_eq_str_valid.
Qed.

(** A decision whose three validated fields are already valid is
    returned unchanged. *)
Lemma validate_decision_of analysis p c kept :
  in_str_list p valid_agents = true →
  clamp_confidence c = Ok c →
  filterM (keep_secondary p) kept = Ok kept →
  _validate_analysis (decision_of analysis p c (VList kept))
  = Ok (decision_of analysis p c (VList kept)).
Proof.
  intros Hp Hc Hk. unfold _validate_analysis.
  change (get (decision_of _ _ _ _) "confidence" _) with c.
  rewrite Hc. cbn [mbind result_bind].
  change (getitem (dict_of_items _) "primary_agent") with (Ok p).
  cbn [mbind result_bind].
  change (in_str_list p ["finance"; "code"]) with (in_str_list p valid_agents).
  rewrite Hp. cbn [negb].
  change (getitem (dict_of_items _) "secondary_agents") with (Ok (VList kept)).
  change (getitem (dict_of_items _) "primary_agent") with (Ok p).
  cbn [mbind result_bind iter]. rewrite Hk. cbn [mbind result_bind].
  reflexivity.
Qed.

(** ** The validation step *)

(** The validation step returns when the confidence is a number (or
    absent) and the secondary agents can be iterated over and hashed. *)
Lemma validate_returns analysis c elems :
  clamp_confidence (get analysis "confidence" (VFloat 0.5)) = Ok c →
  iter (get analysis "secondary_agents" (VList [])) = Ok elems →
  Forall (λ x, hashable x = true) elems →
  _validate_analysis analysis =
    Ok (decision_of analysis (effective_primary analysis)
          (if in_str_list (get analysis "primary_agent" (VStr "finance"))
                valid_agents
           then c else VFloat 0.3)
          (VList (List.filter (is_secondary (effective_primary analysis))
                    elems))).
Proof.
  intros Hc He Hh. unfold _validate_analysis, effective_primary.
  rewrite Hc. cbn [mbind result_bind].
  set (p := get analysis "primary_agent" (VStr "finance")).
  change (getitem (dict_of_items _) "primary_agent") with (Ok p).
  cbn [mbind result_bind].
  change (in_str_list p ["finance"; "code"]) with (in_str_list p valid_agents).
  destruct (in_str_list p valid_agents); cbn [negb].
  - change (getitem (dict_of_items _) "secondary_agents")
      with (Ok (get analysis "secondary_agents" (VList []))).
    change (getitem (dict_of_items _) "primary_agent") with (Ok p).
    cbn [mbind result_bind]. rewrite He. cbn [mbind result_bind].
    by rewrite filterM_keep_secondary_total.
  - change (getitem (insert _ _ _) "secondary_agents")
      with (Ok (get analysis "secondary_agents" (VList []))).
    change (getitem (insert _ _ _) "primary_agent") with (Ok (VStr "finance")).
    cbn [mbind result_bind]. rewrite He. cbn [mbind result_bind].
    by rewrite filterM_keep_secondary_total.
Qed.

Lemma validate_confidence analysis validated :
  _validate_analysis analysis = Ok validated →
  ∃ c' f,
    clamp_confidence (get analysis "confidence" (VFloat 0.5)) = Ok c' ∧
    validated !! "confidence" = Some (VFloat f) ∧
    in_unit_interval f ∧
    VFloat f =
      if in_str_list (get analysis "primary_agent" (VStr "finance"))
           valid_agents
      then c' else VFloat 0.3.
Proof.
  intros (c & elems & kept & Hc & _ & _ & ->)%validate_inv.
  exists c.
  destruct (clamp_confidence_Ok _ _ Hc) as (f & -> & Hf & _).
  destruct (in_str_list _ _).
  - exists f. split; [done|]. split; [reflexivity|]. by split.
  - exists 0.3%float. split; [done|]. split; [reflexivity|]. by split.
Qed.

(** C1: whenever the validation step returns a decision, its
    [confidence] is a float within [0.0, 1.0]; with a registered (or
    absent) primary agent, a confidence of 5.0 is clamped to 1.0, one of -1
    to 0.0, and an absent one is replaced by 0.5; with an unregistered
    primary agent the confidence is 0.3. *)
Theorem validate_confidence_in_unit_interval analysis validated :
  _validate_analysis analysis = Ok validated →
  (∃ c, validated !! "confidence" = Some (VFloat c) ∧ in_unit_interval c) ∧
  (in_str_list (get analysis "primary_agent" (VStr "finance")) valid_agents
   = true →
     (analysis !! "confidence" = Some (VFloat 5.0) →
      validated !! "confidence" = Some (VFloat 1.0)) ∧
     (analysis !! "confidence" = Some (VInt (-1)) →
      validated !! "confidence" = Some (VFloat 0.0)) ∧
     (analysis !! "confidence" = Some (VFloat (-1.0)) →
      validated !! "confidence" = Some (VFloat 0.0)) ∧
     (analysis !! "confidence" = None →
      validated !! "confidence" = Some (VFloat 0.5))) ∧
  (in_str_list (get analysis "primary_agent" (VStr "finance")) valid_agents
   = false →
     validated !! "confidence" = Some (VFloat 0.3)).
Proof.
  intros (c' & f & Hc & Hv & Hf & Heq)%validate_confidence.
  split; [by exists f|]. rewrite Hv. unfold get in Hc.
  split.
  - intros Hp. rewrite Hp in Heq. subst c'.
    repeat split; intros Ha; rewrite Ha in Hc; vm_compute in Hc;
      by injection Hc as <-.
  - intros Hp. rewrite Hp in Heq. by rewrite Heq.
Qed.

Lemma validate_confidence_in_unit_interval_witness :
  ∃ validated,
    _validate_analysis
      (dict_of_items [("primary_agent", VStr "code");
                      ("confidence", VFloat 5.0)]) = Ok validated ∧
    validated !! "confidence" = Some (VFloat 1.0).
Proof.
  eexists. split; [reflexivity|].
  refine (proj1 (proj1 (proj2
    (validate_confidence_in_unit_interval
       (dict_of_items [("primary_agent", VStr "code");
                       ("confidence", VFloat 5.0)]) _ eq_refl)) eq_refl)
    eq_refl).
Defined.

(** C10: validating a validated analysis again returns it unchanged. *)
Theorem validate_idempotent analysis validated :
  _validate_analysis analysis = Ok validated →
  _validate_analysis validated = Ok validated.
Proof.
  intros (c & elems & kept & Hc & _ & Hk & ->)%validate_inv.
  apply validate_decision_of.
  - apply effective_primary_known.
  - destruct (in_str_list _ _); [|reflexivity].
    by apply clamp_confidence_Ok in Hc as (f & -> & _ & Hf).
  - apply filterM_keep_secondary_Ok in Hk as [-> _].
    rewrite filterM_keep_secondary_total
      by apply filter_is_secondary_hashable.
    by rewrite filter_filter_same.
Qed.

Lemma validate_idempotent_witness :
  _validate_analysis
    (decision_of ∅ (VStr "finance") (VFloat 1.0) (VList [VStr "code"]))
  = Ok (decision_of ∅ (VStr "finance") (VFloat 1.0) (VList [VStr "code"])).
Proof.
  apply (validate_idempotent
           (dict_of_items [("confidence", VFloat 5.0);
                           ("secondary_agents",
                            VList [VStr "code"; VStr "finance"; VInt 3])])).
  reflexivity.
Defined.

(** C3, as stated, fails: the secondary agents of the analysis
    {primary_agent: finance, secondary_agents: [code, code]} come back as
    [code, code], a sequence with a duplicate. *)
Lemma validate_secondary_keeps_duplicates :
  ∃ validated,
    _validate_analysis
      (dict_of_items [("primary_agent", VStr "finance");
                      ("secondary_agents", VList [VStr "code"; VStr "code"])])
    = Ok validated ∧
    validated !! "secondary_agents" = Some (VList [VStr "code"; VStr "code"]) ∧
    ¬ NoDup [VStr "code"; VStr "code"].
Proof.
  eexists. split; [reflexivity|]. split; [reflexivity|].
  intros Hnd. apply NoDup_cons in Hnd as [Hin _]. apply Hin. by left.
Qed.

(** C3, amended: the returned [secondary_agents] is the sequence of the
    analysis filtered to the registered identifiers other than the
    validated [primary_agent], order and repetitions kept. *)
Theorem validate_secondary_agents analysis validated :
  _validate_analysis analysis = Ok validated →
  ∃ p elems,
    validated !! "primary_agent" = Some (VStr p) ∧
    iter (get analysis "secondary_agents" (VList [])) = Ok elems ∧
    validated !! "secondary_agents"
    = Some (VList (List.filter (is_secondary (VStr p)) elems)) ∧
    Forall (λ agent, ∃ s, agent = VStr s ∧ s ∈ valid_agents ∧ s ≠ p)
      (List.filter (is_secondary (VStr p)) elems).
Proof.
  intros (c & elems & kept & _ & He & Hk & ->)%validate_inv.
  destruct (proj1 (in_str_list_valid _) (effective_primary_known analysis))
    as (p & Hp & _).
  rewrite Hp in *. exists p, elems.
  apply filterM_keep_secondary_Ok in Hk as [-> _].
  split; [reflexivity|]. split; [done|]. split; [reflexivity|].
  apply Forall_forall. intros x [_ Hx]%list_elem_of_In%filter_In.
  apply is_secondary_true in Hx as (s & -> & Hs & Hne).
  exists s. repeat split; [done|congruence].
Qed.

Lemma validate_secondary_agents_witness :
  ∃ validated,
    _validate_analysis
      (dict_of_items [("primary_agent", VStr "code");
                      ("secondary_agents",
                       VList [VStr "finance"; VStr "code"; VStr "legal";
                              VStr "finance"])])
    = Ok validated ∧
    ∃ p elems,
      validated !! "primary_agent" = Some (VStr p) ∧
      iter (VList [VStr "finance"; VStr "code"; VStr "legal"; VStr "finance"])
      = Ok elems ∧
      validated !! "secondary_agents"
      = Some (VList (List.filter (is_secondary (VStr p)) elems)) ∧
      Forall (λ agent, ∃ s, agent = VStr s ∧ s ∈ valid_agents ∧ s ≠ p)
        (List.filter (is_secondary (VStr p)) elems).
Proof.
  eexists. split; [reflexivity|].
  exact (validate_secondary_agents
    (dict_of_items [("primary_agent", VStr "code");
                    ("secondary_agents",
                     VList [VStr "finance"; VStr "code"; VStr "legal";
                            VStr "finance"])]) _ eq_refl).
Defined.

(** ** The keyword lists *)

(** C8, as stated, fails: the keyword bot is in both lists. *)
Lemma keyword_lists_share_bot :
  "bot" ∈ finance_keywords ∧ "bot" ∈ code_keywords.
Proof. split; apply list_elem_of_In; vm_compute; tauto. Qed.

(** C8, amended: bot is the one keyword the two lists share. *)
Theorem keyword_lists_common_keyword keyword :
  keyword ∈ finance_keywords ∧ keyword ∈ code_keywords ↔ keyword = "bot".
Proof.
  split; [|intros ->; split; apply list_elem_of_In; vm_compute; tauto].
  intros [Hf Hc]. revert keyword Hf Hc.
  refine (proj1 (Forall_forall
            (λ k, k ∈ code_keywords → k = "bot") finance_keywords) _).
  apply (bool_decide_unpack _). vm_compute. reflexivity.
Qed.

(** ** The keyword classifier *)

(** A score is the number of keywords of the list found in the query. *)
Lemma keyword_score_count keywords query_lower :
  keyword_score keywords query_lower
  = Z.of_nat (length (List.filter (λ keyword, contains keyword query_lower)
                        keywords)).
Proof.
  unfold keyword_score.
  induction (List.filter _ keywords) as [|k l IH]; [done|].
  cbn [fmap list_fmap foldr length]. rewrite IH. lia.
Qed.

Lemma keyword_score_bounds keywords query_lower :
  (0 ≤ keyword_score keywords query_lower ≤ Z.of_nat (length keywords))%Z.
Proof.
  rewrite keyword_score_count.
  pose proof (filter_length_le (λ keyword, contains keyword query_lower)
                keywords). lia.
Qed.

(** On the scores that can occur, multiplying in either order gives the
    same float. *)
Lemma keyword_confidence_spec_order (n : nat) :
  (n ≤ 41)%nat →
  keyword_confidence (Z.of_nat n)
  = fmin 0.8 (0.4 + 0.1 * float_of_Z (Z.of_nat n)).
Proof.
  intros Hn.
  do 42 (destruct n as [|n]; [vm_compute; reflexivity|]). lia.
Qed.

Lemma keyword_confidence_spec keywords query_lower :
  (length keywords ≤ 41)%nat →
  keyword_confidence (keyword_score keywords query_lower)
  = fmin 0.8 (0.4 + 0.1 * float_of_Z (keyword_score keywords query_lower)).
Proof.
  intros Hl. pose proof (keyword_score_bounds keywords query_lower) as Hb.
  rewrite keyword_score_count in *.
  apply keyword_confidence_spec_order. lia.
Qed.

Lemma scores_of_empty_query :
  finance_score "" = 0%Z ∧ code_score "" = 0%Z.
Proof. by vm_compute. Qed.

(** C2: the keyword classifier lower-cases the query and counts the
    keywords of each list that occur in it as substrings; with the
    finance score above the code score the primary agent is finance and
    the confidence is min(0.8, 0.4 + 0.1 * finance_score), symmetrically
    for code, and on a tie (as for the empty query, whose scores are both
    zero) the primary agent is finance and the confidence is 0.3. *)
Theorem fallback_primary_and_confidence query :
  let fs := finance_score query in
  let cs := code_score query in
  let analysis := _fallback_analysis query in
  (fs = Z.of_nat (length (List.filter
                       (λ keyword, contains keyword (lower query))
                       finance_keywords)) ∧
   cs = Z.of_nat (length (List.filter
                       (λ keyword, contains keyword (lower query))
                       code_keywords))) ∧
  ((fs > cs)%Z →
     analysis !! "primary_agent" = Some (VStr "finance") ∧
     analysis !! "confidence"
     = Some (VFloat (fmin 0.8 (0.4 + 0.1 * float_of_Z fs)))) ∧
  ((cs > fs)%Z →
     analysis !! "primary_agent" = Some (VStr "code") ∧
     analysis !! "confidence"
     = Some (VFloat (fmin 0.8 (0.4 + 0.1 * float_of_Z cs)))) ∧
  (fs = cs →
     analysis !! "primary_agent" = Some (VStr "finance") ∧
     analysis !! "confidence" = Some (VFloat 0.3)) ∧
  (query = "" → fs = 0%Z ∧ cs = 0%Z).
Proof.
  intros fs cs analysis.
  split; [split; apply keyword_score_count|].
  assert (Hfc : keyword_confidence fs
                = fmin 0.8 (0.4 + 0.1 * float_of_Z fs))
    by (by apply keyword_confidence_spec).
  assert (Hcc : keyword_confidence cs
                = fmin 0.8 (0.4 + 0.1 * float_of_Z cs))
    by (by apply keyword_confidence_spec; vm_compute; lia).
  subst analysis. unfold _fallback_analysis. fold fs cs.
  repeat split.
  1,2: destruct (Z.ltb_spec cs fs); [|lia].
  5,6: destruct (Z.ltb_spec cs fs); [lia|]; destruct (Z.ltb_spec fs cs); [lia|].
  3,4: destruct (Z.ltb_spec cs fs); [lia|]; destruct (Z.ltb_spec fs cs); [|lia].
  all: try rewrite <-Hfc; try rewrite <-Hcc; try reflexivity.
  all: subst query; apply scores_of_empty_query.
Qed.

Lemma fallback_primary_and_confidence_witness :
  (_fallback_analysis "What is an ETF?" !! "primary_agent"
   = Some (VStr "finance") ∧
   _fallback_analysis "What is an ETF?" !! "confidence"
   = Some (VFloat 0.5)) ∧
  (_fallback_analysis "Debug this Python function" !! "primary_agent"
   = Some (VStr "code") ∧
   _fallback_analysis "Debug this Python function" !! "confidence"
   = Some (VFloat 0.7000000000000001)) ∧
  (_fallback_analysis "" !! "primary_agent" = Some (VStr "finance") ∧
   _fallback_analysis "" !! "confidence" = Some (VFloat 0.3)).
Proof.
  split; [|split].
  - apply (fallback_primary_and_confidence "What is an ETF?").
    vm_compute; reflexivity.
  - apply (fallback_primary_and_confidence "Debug this Python function").
    vm_compute; reflexivity.
  - apply (fallback_primary_and_confidence "").
    vm_compute; reflexivity.
Defined.

Lemma fallback_fields query :
  let multi := (0 <? finance_score query)%Z && (0 <? code_score query)%Z in
  ∃ primary other : string,
    (primary = "finance" ∧ other = "code"
     ∨ primary = "code" ∧ other = "finance") ∧
    _fallback_analysis query !! "primary_agent" = Some (VStr primary) ∧
    _fallback_analysis query !! "is_multi_domain" = Some (VBool multi) ∧
    _fallback_analysis query !! "secondary_agents"
    = Some (VList (if multi then [VStr other] else [])).
Proof.
  intros multi. subst multi. unfold _fallback_analysis.
  set (fs := finance_score query). set (cs := code_score query).
  destruct (cs <? fs)%Z; [|destruct (fs <? cs)%Z];
    [exists "finance", "code" | exists "code", "finance"
    | exists "finance", "code"];
    (split; [tauto|]); (split; [reflexivity|]); (split; [reflexivity|]);
    by destruct ((0 <? fs)%Z && (0 <? cs)%Z).
Qed.

(** C6: [is_multi_domain] is true exactly when both scores are
    positive, and [secondary_agents] is then the one registered agent
    that is not the primary one, and empty otherwise. *)
Theorem fallback_multi_domain query :
  let fs := finance_score query in
  let cs := code_score query in
  let analysis := _fallback_analysis query in
  ∃ (multi : bool) (primary other : string),
    analysis !! "is_multi_domain" = Some (VBool multi) ∧
    (multi = true ↔ (fs > 0)%Z ∧ (cs > 0)%Z) ∧
    analysis !! "primary_agent" = Some (VStr primary) ∧
    primary ∈ valid_agents ∧ other ∈ valid_agents ∧ other ≠ primary ∧
    analysis !! "secondary_agents"
    = Some (VList (if multi then [VStr other] else [])).
Proof.
  intros fs cs analysis. subst analysis.
  destruct (fallback_fields query) as (primary & other & Hpo & Hp & Hm & Hs).
  exists ((0 <? fs)%Z && (0 <? cs)%Z), primary, other.
  split; [exact Hm|].
  split; [rewrite andb_true_iff, !Z.ltb_lt; lia|].
  split; [exact Hp|]. unfold valid_agents.
  destruct Hpo as [[-> ->]|[-> ->]];
    (split; [rewrite !elem_of_cons; tauto|]);
    (split; [rewrite !elem_of_cons; tauto|]);
    (split; [discriminate|exact Hs]).
Qed.

(** The end-to-end examples of the keyword classifier. *)
Example fallback_what_is_an_etf :
  _fallback_analysis "What is an ETF?" !! "primary_agent"
  = Some (VStr "finance") ∧
  _fallback_analysis "What is an ETF?" !! "confidence" = Some (VFloat 0.5) ∧
  _fallback_analysis "What is an ETF?" !! "is_multi_domain"
  = Some (VBool false).
Proof. repeat split; vm_compute; reflexivity. Qed.

Example fallback_trading_bot :
  _fallback_analysis "Build a Python trading bot" !! "primary_agent"
  = Some (VStr "code") ∧
  _fallback_analysis "Build a Python trading bot" !! "confidence"
  = Some (VFloat 0.7000000000000001) ∧
  _fallback_analysis "Build a Python trading bot" !! "is_multi_domain"
  = Some (VBool true) ∧
  _fallback_analysis "Build a Python trading bot" !! "secondary_agents"
  = Some (VList [VStr "finance"]).
Proof. repeat split; vm_compute; reflexivity. Qed.

(** ** Decisions of [analyze_query] *)

(** C7, as stated, fails: when the hosted model answers
    {primary_agent: finance, is_multi_domain: true}, the decision returned
    has [is_multi_domain] true and no secondary agent. *)
Lemma validated_multi_domain_without_secondary :
  let router :=
    {| enabled := true;
       reply := λ _, Ok (VDict [("primary_agent", VStr "finance");
                                ("is_multi_domain", VBool true)]) |} in
  let decision := analyze_query router "What is an ETF?" in
  decision !! "is_multi_domain" = Some (VBool true) ∧
  decision !! "secondary_agents" = Some (VList []).
Proof. split; reflexivity. Qed.

Lemma getitem_decision_of analysis p c s :
  getitem (decision_of analysis p c s) "primary_agent" = Ok p ∧
  getitem (decision_of analysis p c s) "confidence" = Ok c.
Proof. split; reflexivity. Qed.

(** [analyze_query] returns the keyword fallback's decision or a
    validated answer of the hosted model. *)
Lemma analyze_query_cases self query :
  analyze_query self query = _fallback_analysis query
  ∨ ∃ analysis,
      enabled self = true ∧
      reply self query ≫= as_dict = Ok analysis ∧
      _validate_analysis analysis = Ok (analyze_query self query).
Proof.
  unfold analyze_query.
  destruct (enabled self); cbn [negb]; [|by left].
  destruct (reply self query) as [parsed|e]; cbn [mbind result_bind];
    [|by left].
  destruct (as_dict parsed) as [analysis|e]; cbn [mbind result_bind];
    [|by left].
  destruct (_validate_analysis analysis) as [validated|e] eqn:Hv;
    cbn [mbind result_bind]; [|by left].
  destruct (validate_inv _ _ Hv) as (c & elems & kept & _ & _ & _ & Heq).
  right. exists analysis. split; [done|]. split; [done|].
  rewrite Hv. f_equal. rewrite Heq.
  destruct (getitem_decision_of analysis (effective_primary analysis)
    (if in_str_list (get analysis "primary_agent" (VStr "finance"))
          valid_agents then c else VFloat 0.3) (VList kept)) as [-> ->].
  reflexivity.
Qed.

(** C7, amended: a decision is either the keyword fallback's, where
    [is_multi_domain] is true only with one registered secondary agent
    other than the primary one, or a validated analysis of the hosted
    model's answer, whose [is_multi_domain] is the one of the answer
    (false when absent), taken over as it is. *)
Theorem analyze_query_multi_domain self query :
  let decision := analyze_query self query in
  (decision = _fallback_analysis query ∧
   ∃ multi : bool,
     decision !! "is_multi_domain" = Some (VBool multi) ∧
     (multi = true →
      ∃ s, decision !! "secondary_agents" = Some (VList [VStr s]) ∧
           s ∈ valid_agents ∧
           decision !! "primary_agent" ≠ Some (VStr s)))
  ∨
  (∃ analysis,
     enabled self = true ∧
     reply self query ≫= as_dict = Ok analysis ∧
     _validate_analysis analysis = Ok decision ∧
     decision !! "is_multi_domain"
     = Some (get analysis "is_multi_domain" (VBool false))).
Proof.
  intros decision. subst decision.
  destruct (analyze_query_cases self query)
    as [->|(analysis & Hen & Hr & Hv)].
  - left. split; [done|].
    destruct (fallback_fields query) as (primary & other & Hpo & Hp & Hm & Hs).
    eexists. split; [exact Hm|]. intros Hmulti. rewrite Hmulti in Hs.
    exists other. split; [exact Hs|]. rewrite Hp. unfold valid_agents.
    destruct Hpo as [[-> ->]|[-> ->]];
      (split; [rewrite !elem_of_cons; tauto|discriminate]).
  - right. exists analysis. repeat split; try done.
    destruct (validate_inv _ _ Hv) as (c & elems & kept & _ & _ & _ & ->).
    reflexivity.
Qed.

(** ** Dispatch and streaming *)

Import Orchestrator.

(** C5: when the context requests the model finance-agent or
    code-agent, dispatch calls that agent and logs the interaction, and
    makes no call on the router: neither [analyze_query] nor
    [route_multi_domain_query] occurs among its calls. *)
Theorem explicit_agent_bypasses_router
    (llm_router : Router) (query : string) (user_id : option string)
    (context : context_arg) :
  requested_model context = VStr "finance-agent"
  ∨ requested_model context = VStr "code-agent" →
  let run := process_query llm_router query user_id context in
  (∃ key agent,
     (requested_model context = VStr "finance-agent" ∧
      key = "finance" ∧ agent = FinanceAgent
      ∨ requested_model context = VStr "code-agent" ∧
        key = "code" ∧ agent = CodeAgent) ∧
     calls run = [AgentProcessQuery (name agent) query;
                  LogAgentInteraction (or_anonymous user_id) (VStr key)] ∧
     outcome run = Ok (_generate_response agent query)) ∧
  (∀ q, AnalyzeQuery q ∉ calls run) ∧
  (∀ q, RouteMultiDomainQuery q ∉ calls run).
Proof.
  intros Hreq run.
  assert (Hrun :
    ∃ key agent,
      (requested_model context = VStr "finance-agent" ∧
       key = "finance" ∧ agent = FinanceAgent
       ∨ requested_model context = VStr "code-agent" ∧
         key = "code" ∧ agent = CodeAgent) ∧
      calls run = [AgentProcessQuery (name agent) query;
                   LogAgentInteraction (or_anonymous user_id) (VStr key)] ∧
      outcome run = Ok (_generate_response agent query)).
  { subst run. unfold process_query.
    destruct Hreq as [Hreq|Hreq]; rewrite Hreq.
    - exists "finance", FinanceAgent. split; [by left|]. split; reflexivity.
    - exists "code", CodeAgent. split; [by right|]. split; reflexivity. }
  split; [exact Hrun|].
  destruct Hrun as (key & agent & _ & -> & _).
  split; intros q Hin; repeat (apply elem_of_cons in Hin as [Hin|Hin]; [discriminate|]);
    by apply elem_of_nil in Hin.
Qed.

Lemma explicit_agent_bypasses_router_witness :
  calls (process_query (of_LLMRouter disabled) "What is an ETF?" None
           (CtxStr "finance-agent"))
  = [AgentProcessQuery "FinanceAgent" "What is an ETF?";
     LogAgentInteraction "anonymous" (VStr "finance")] ∧
  AnalyzeQuery "What is an ETF?"
  ∉ calls (process_query (of_LLMRouter disabled) "What is an ETF?" None
             (CtxStr "finance-agent")).
Proof.
  pose proof (explicit_agent_bypasses_router (of_LLMRouter disabled)
                "What is an ETF?" None (CtxStr "finance-agent")
                (or_introl eq_refl)) as (_ & Hanalyze & _).
  split; [reflexivity|apply Hanalyze].
Defined.

Lemma string_app_nil_r (s : string) : s +:+ "" = s.
Proof.
  induction s as [|c s IH]; [done|].
  change (String c (s +:+ "") = String c s). by rewrite IH.
Qed.

Lemma string_app_assoc (s1 s2 s3 : string) :
  (s1 +:+ s2) +:+ s3 = s1 +:+ (s2 +:+ s3).
Proof.
  induction s1 as [|c s1 IH]; [done|].
  change (String c ((s1 +:+ s2) +:+ s3) = String c (s1 +:+ (s2 +:+ s3))).
  by rewrite IH.
Qed.

Lemma join_cons sep x l :
  l ≠ [] → join sep (x :: l) = x +:+ sep +:+ join sep l.
Proof. by destruct l. Qed.

Lemma join_empty_cons x l : join "" (x :: l) = x +:+ join "" l.
Proof.
  destruct l as [|y l]; [by rewrite string_app_nil_r|].
  by rewrite join_cons.
Qed.

Lemma join_app sep l1 l2 :
  l1 ≠ [] → l2 ≠ [] →
  join sep (l1 ++ l2) = join sep l1 +:+ sep +:+ join sep l2.
Proof.
  intros H1 H2. induction l1 as [|x l1 IH]; [done|].
  destruct l1 as [|y l1].
  - simpl app. by rewrite join_cons.
  - change ((x :: y :: l1) ++ l2) with (x :: ((y :: l1) ++ l2)).
    rewrite !join_cons by done. rewrite IH by done.
    by rewrite !string_app_assoc.
Qed.

Lemma range_step_pos stop step :
  (0 < stop)%nat → (0 < step)%nat →
  range_step stop step = 0%nat :: (Nat.add step <$> range_step (stop - step) step).
Proof.
  intros Hstop Hstep. unfold range_step.
  assert ((stop + step - 1) / step = S ((stop - step + step - 1) / step))%nat
    as ->.
  { destruct (Nat.le_gt_cases step stop) as [Hle|Hgt].
    - replace (stop + step - 1)%nat with ((stop - step + step - 1) + 1 * step)%nat
        by lia.
      rewrite Nat.div_add by lia. lia.
    - replace (stop - step)%nat with 0%nat by lia.
      rewrite (Nat.div_small (0 + step - 1)) by lia.
      assert (1 ≤ (stop + step - 1) / step)%nat
        by (apply Nat.div_le_lower_bound; lia).
      assert ((stop + step - 1) / step < 2)%nat
        by (apply Nat.Div0.div_lt_upper_bound; lia).
      lia. }
  cbn [seq fmap list_fmap]. f_equal.
  rewrite <-fmap_S_seq, <-!list_fmap_compose.
  apply list_fmap_ext. intros i k _. simpl. lia.
Qed.

Lemma chunk_at_shift words chunk_size i :
  chunk_at words chunk_size (chunk_size + i)
  = chunk_at (drop chunk_size words) chunk_size i.
Proof.
  unfold chunk_at. rewrite drop_drop, length_drop.
  replace (chunk_size + i + chunk_size <? length words)%nat
    with (i + chunk_size <? length words - chunk_size)%nat; [done|].
  apply eq_true_iff_eq. rewrite !Nat.ltb_lt. unfold lt. lia.
Qed.

Lemma chunks_of_cons words chunk_size :
  words ≠ [] → (0 < chunk_size)%nat →
  chunks_of words chunk_size
  = chunk_at words chunk_size 0 :: chunks_of (drop chunk_size words) chunk_size.
Proof.
  intros Hw Hc. unfold chunks_of.
  rewrite range_step_pos; [|destruct words; [done|simpl; lia]|done].
  cbn [fmap list_fmap]. f_equal. rewrite <-list_fmap_compose, length_drop.
  apply list_fmap_ext. intros i k _. apply chunk_at_shift.
Qed.

Lemma chunks_of_nil chunk_size :
  (0 < chunk_size)%nat → chunks_of [] chunk_size = [].
Proof.
  intros Hc. unfold chunks_of, range_step. simpl length.
  by rewrite Nat.div_small by lia.
Qed.

(** The chunks of a word list concatenate to the words joined by single
    spaces. *)
Lemma join_chunks_of words chunk_size :
  (0 < chunk_size)%nat →
  join "" (chunks_of words chunk_size) = join " " words.
Proof.
  intros Hc.
  assert (∀ n words, (length words ≤ n)%nat →
            join "" (chunks_of words chunk_size) = join " " words) as H;
    [|by apply (H (length words))].
  clear words. induction n as [|n IH]; intros words Hn.
  - destruct words; [|simpl in Hn; lia]. by rewrite chunks_of_nil.
  - destruct (decide (words = [])) as [->|Hne]; [by rewrite chunks_of_nil|].
    rewrite chunks_of_cons, join_empty_cons by done.
    rewrite IH.
    2:{ rewrite length_drop.
        assert (length words ≠ 0)%nat by (by destruct words). lia. }
    unfold chunk_at. rewrite drop_0, Nat.add_0_l.
    destruct (Nat.ltb_spec chunk_size (length words)) as [Hlt|Hge].
    + rewrite <-(take_drop chunk_size words) at 3.
      rewrite join_app, string_app_assoc; [done|..].
      * intros Ht%(f_equal length). rewrite length_take in Ht.
        simpl in Ht. lia.
      * intros Ht%(f_equal length). rewrite length_drop in Ht.
        simpl in Ht. lia.
    + rewrite take_ge, drop_ge by done. apply string_app_nil_r.
Qed.

(** Streaming makes the calls of [process_query] and chunks its
    response, or raises what it raises. *)
Lemma process_query_stream_outcome llm_router query user_id context :
  calls (process_query_stream llm_router query user_id context)
  = calls (process_query llm_router query user_id context) ∧
  outcome (process_query_stream llm_router query user_id context)
  = match outcome (process_query llm_router query user_id context) with
    | Ok response => Ok (stream_chunks response)
    | Raise e => Raise e
    end.
Proof.
  unfold process_query_stream.
  destruct (process_query llm_router query user_id context) as [t [r|e]];
    unfold calls, outcome; simpl; [|done].
  by rewrite app_nil_r.
Qed.

Lemma chunks_of_lookup words k chunk :
  chunks_of words 5 !! k = Some chunk →
  (k * 5 < length words)%nat ∧ chunk = chunk_at words 5 (k * 5).
Proof.
  unfold chunks_of, range_step. rewrite !list_lookup_fmap.
  destruct (seq 0 _ !! k) as [i|] eqn:Hi; [|done].
  apply lookup_seq in Hi as [-> Hk]. simpl. intros [= <-].
  split; [|done].
  pose proof (Nat.Div0.mul_div_le (length words + 5 - 1) 5). lia.
Qed.

(** C4, on the code: asked What is an ETF? with the finance agent chosen
    by the request, whatever the router and the user, dispatch returns the
    agent's text on ETFs, which has line breaks, while the chunks streamed
    for the same request concatenate to a text without any line break:
    the streamed content is not the text of the non-streaming call. *)
Theorem stream_loses_line_breaks
    (llm_router : Router) (user_id : option string) :
  outcome (process_query llm_router "What is an ETF?" user_id
             (CtxDict (<["model" := VStr "finance-agent"]> ∅)))
  = Ok etf_text ∧
  outcome (process_query_stream llm_router "What is an ETF?" user_id
             (CtxDict (<["model" := VStr "finance-agent"]> ∅)))
  = Ok (stream_chunks etf_text) ∧
  contains nl etf_text = true ∧
  contains nl (join "" (stream_chunks etf_text)) = false ∧
  join "" (stream_chunks etf_text) ≠ etf_text.
Proof.
  assert (Hnl : contains nl etf_text = true) by (vm_compute; reflexivity).
  assert (Hno : contains nl (join "" (stream_chunks etf_text)) = false)
    by (vm_compute; reflexivity).
  assert (Hrun : outcome (process_query llm_router "What is an ETF?" user_id
                   (CtxDict (<["model" := VStr "finance-agent"]> ∅)))
                 = Ok etf_text).
  { vm_compute. reflexivity. }
  split; [done|]. split.
  - destruct (process_query_stream_outcome llm_router "What is an ETF?"
                user_id (CtxDict (<["model" := VStr "finance-agent"]> ∅)))
      as [_ ->].
    by rewrite Hrun.
  - split; [done|]. split; [done|]. intros Heq. rewrite Heq in Hno.
    congruence.
Qed.

(** What the streaming variant yields: when dispatch returns a text,
    finitely many chunks, one per group of five consecutive words (the
    last group may be shorter), each followed by one space except the
    last; their concatenation is the words of the text joined by single
    spaces, so the white space of the text itself is not kept. *)
Lemma stream_concatenation
    (llm_router : Router) (query : string) (user_id : option string)
    (context : context_arg) (response : string) :
  outcome (process_query llm_router query user_id context) = Ok response →
  ∃ chunks,
    outcome (process_query_stream llm_router query user_id context)
    = Ok chunks ∧
    join "" chunks = join " " (split response) ∧
    length chunks = ((length (split response) + 4) / 5)%nat ∧
    ∀ k chunk, chunks !! k = Some chunk →
      let group := take 5 (drop (k * 5) (split response)) in
      (1 ≤ length group ≤ 5)%nat ∧
      chunk = join " " group
              +:+ (if (k * 5 + 5 <? length (split response))%nat
                   then " " else "").
Proof.
  intros Hr. exists (stream_chunks response).
  destruct (process_query_stream_outcome llm_router query user_id context)
    as [_ ->].
  rewrite Hr. split; [done|]. unfold stream_chunks.
  split; [by apply join_chunks_of; lia|].
  split.
  - unfold chunks_of, range_step. rewrite !length_fmap, length_seq.
    f_equal; lia.
  - cbv zeta. intros k chunk [Hk ->]%chunks_of_lookup.
    rewrite length_take, length_drop. split; [lia|].
    unfold chunk_at. destruct (_ <? _)%nat; [done|].
    by rewrite string_app_nil_r.
Qed.

Lemma stream_concatenation_witness :
  ∃ chunks,
    outcome (process_query_stream (of_LLMRouter disabled) "What is an ETF?"
               None CtxNone)
    = Ok chunks ∧
    join "" chunks = join " " (split etf_text) ∧
    length chunks = ((length (split etf_text) + 4) / 5)%nat ∧
    ∀ k chunk, chunks !! k = Some chunk →
      let group := take 5 (drop (k * 5) (split etf_text)) in
      (1 ≤ length group ≤ 5)%nat ∧
      chunk = join " " group
              +:+ (if (k * 5 + 5 <? length (split etf_text))%nat
                   then " " else "").
Proof.
  apply (stream_concatenation (of_LLMRouter disabled) "What is an ETF?" None
           CtxNone etf_text).
  vm_compute. reflexivity.
Defined.

(** ** The chat endpoint *)

(** C9, on the code: a request with an empty message list raises the
    400 error inside the [try] block, which the handler of [Exception]
    turns into an error of status 500, whatever the other fields are. *)
Theorem chat_completions_empty_messages
    (llm_router : Router) (exn_str : exn → string)
    (request_id : string) (created_time : Z)
    (model : option string) (temperature : option float)
    (max_tokens : option Z) (stream : option bool)
    (stop : option (string + list string)) :
  Routes.chat_completions llm_router exn_str request_id created_time
    {| Routes.messages := []; Routes.model := model;
       Routes.temperature := temperature; Routes.max_tokens := max_tokens;
       Routes.stream := stream; Routes.stop := stop |}
  = ([], Raise (HTTPException 500
                  ("Internal server error: "
                   +:+ exn_str (HTTPException 400 "Messages cannot be empty")))).
Proof. reflexivity. Qed.

(** ** More on the validation step *)

(** The validation step as one sequence of its three fallible steps. *)
Lemma validate_eq analysis :
  _validate_analysis analysis =
    (c ← clamp_confidence (get analysis "confidence" (VFloat 0.5));
     elems ← iter (get analysis "secondary_agents" (VList []));
     kept ← filterM (keep_secondary (effective_primary analysis)) elems;
     mret (decision_of analysis (effective_primary analysis)
             (if in_str_list (get analysis "primary_agent" (VStr "finance"))
                   valid_agents
              then c else VFloat 0.3)
             (VList kept))).
Proof.
  unfold _validate_analysis, effective_primary.
  destruct (clamp_confidence _) as [c|e]; cbn [mbind result_bind]; [|done].
  set (p := get analysis "primary_agent" (VStr "finance")).
  set (sec := get analysis "secondary_agents" (VList [])).
  change (getitem (dict_of_items _) "primary_agent") with (Ok p).
  cbn [mbind result_bind].
  change (in_str_list p ["finance"; "code"]) with (in_str_list p valid_agents).
  destruct (in_str_list p valid_agents); cbn [negb].
  - change (getitem (dict_of_items _) "secondary_agents") with (Ok sec).
    change (getitem (dict_of_items _) "primary_agent") with (Ok p).
    cbn [mbind result_bind].
    destruct (iter sec) as [elems|e]; cbn [mbind result_bind]; [|done].
    by destruct (filterM _ elems).
  - change (getitem (insert _ _ _) "secondary_agents") with (Ok sec).
    change (getitem (insert _ _ _) "primary_agent") with (Ok (VStr "finance")).
    cbn [mbind result_bind].
    destruct (iter sec) as [elems|e]; cbn [mbind result_bind]; [|done].
    by destruct (filterM _ elems).
Qed.

(** The clamp returns on numbers and raises [TypeError] on the rest. *)
Lemma clamp_confidence_cases c :
  (is_Some (as_num c) ∧ ∃ r, clamp_confidence c = Ok r)
  ∨ (as_num c = None ∧ clamp_confidence c = Raise TypeError).
Proof.
  unfold clamp_confidence, min, max, lt.
  destruct c as [|b|z|x| | |]; simpl; try (by right).
  - left. split; [done|]. by destruct b; eexists.
  - left. split; [done|].
    destruct (match float_Z_compare 1 z with Some Gt => true | _ => false end);
      simpl; by eexists.
  - left. split; [done|]. destruct (x <? 1)%float; simpl; by eexists.
Qed.

Lemma filterM_keep_secondary_cases p elems :
  (Forall (λ x, hashable x = true) elems ∧
   filterM (keep_secondary p) elems = Ok (List.filter (is_secondary p) elems))
  ∨ (¬ Forall (λ x, hashable x = true) elems ∧
     filterM (keep_secondary p) elems = Raise TypeError).
Proof.
  induction elems as [|x elems IH]; [by left|].
  cbn [filterM]. destruct (hashable x) eqn:Hx.
  - assert (keep_secondary p x = Ok (is_secondary p x)) as ->
      by (by destruct x).
    cbn [mbind result_bind].
    destruct IH as [[Hall ->]|[Hnot ->]]; [left|right].
    + split; [by constructor|]. simpl. by destruct (is_secondary p x).
    + split; [|done]. intros Hall. apply Hnot. by inversion Hall.
  - right. split.
    + intros Hall. inversion Hall. congruence.
    + by destruct x.
Qed.

Lemma iter_cases v :
  (∃ elems, iter v = Ok elems) ∨ iter v = Raise TypeError.
Proof. destruct v; simpl; eauto. Qed.

(** X2: the validation step returns exactly when the confidence is a
    number (or absent) and the secondary agents are a sequence of hashable
    values (or absent); whenever it raises, it raises [TypeError]. *)
Theorem validate_returns_iff analysis :
  ((∃ validated, _validate_analysis analysis = Ok validated) ↔
   is_Some (as_num (get analysis "confidence" (VFloat 0.5))) ∧
   ∃ elems, iter (get analysis "secondary_agents" (VList [])) = Ok elems ∧
            Forall (λ x, hashable x = true) elems) ∧
  (∀ e, _validate_analysis analysis = Raise e → e = TypeError).
Proof.
  rewrite validate_eq.
  destruct (clamp_confidence_cases (get analysis "confidence" (VFloat 0.5)))
    as [[Hnum [c ->]]|[Hnum ->]]; cbn [mbind result_bind].
  2:{ rewrite Hnum. split; [|by intros e [= <-]].
      split; [by intros [? ?]|]. by intros [[? ?] _]. }
  destruct (iter_cases (get analysis "secondary_agents" (VList [])))
    as [[elems ->]| ->]; cbn [mbind result_bind].
  2:{ split; [|by intros e [= <-]].
      split; [by intros [? ?]|]. by intros [_ (? & ? & _)]. }
  destruct (filterM_keep_secondary_cases (effective_primary analysis) elems)
    as [[Hall ->]|[Hnot ->]]; cbn [mbind result_bind].
  - split; [|done]. split; [|by eexists].
    intros _. split; [done|]. by exists elems.
  - split; [|by intros e [= <-]].
    split; [by intros [? ?]|]. intros [_ (elems' & [= <-] & Hall)]. done.
Qed.

(** X1: the [primary_agent] of a validated analysis is a registered
    identifier: the one of the analysis when that is registered, and
    otherwise finance, with the confidence set to 0.3. *)
Theorem validate_primary_agent analysis validated :
  _validate_analysis analysis = Ok validated →
  ∃ s, validated !! "primary_agent" = Some (VStr s) ∧
       s ∈ valid_agents ∧
       (get analysis "primary_agent" (VStr "finance") = VStr s
        ∨ (in_str_list (get analysis "primary_agent" (VStr "finance"))
             valid_agents = false ∧
           s = "finance" ∧
           validated !! "confidence" = Some (VFloat 0.3))).
Proof.
  intros (c & elems & kept & _ & _ & _ & ->)%validate_inv.
  unfold effective_primary.
  destruct (in_str_list (get analysis "primary_agent" (VStr "finance"))
              valid_agents) eqn:Hin.
  - apply in_str_list_valid in Hin as (s & Hs & Hv). rewrite Hs.
    exists s. split; [reflexivity|]. split; [done|]. by left.
  - exists "finance". split; [reflexivity|].
    split; [by left|]. right. split; [done|]. split; reflexivity.
Qed.

Lemma validate_primary_agent_witness :
  ∃ s, decision_of ∅ (VStr "finance") (VFloat 0.3) (VList [])
         !! "primary_agent" = Some (VStr s) ∧
       s ∈ valid_agents.
Proof.
  destruct (validate_primary_agent
              (dict_of_items [("primary_agent", VStr "legal");
                              ("confidence", VFloat 0.9)])
              (decision_of ∅ (VStr "finance") (VFloat 0.3) (VList []))
              eq_refl) as (s & Hs & Hv & _).
  by exists s.
Defined.

(** X3: a validated analysis has exactly the seven decision fields, so
    any other key of the analysis is dropped, and [is_multi_domain],
    [reasoning], [query_type] and [key_topics] are those of the analysis,
    or their defaults when absent. *)
Theorem validate_fields analysis validated :
  _validate_analysis analysis = Ok validated →
  dom validated
  = list_to_set ["primary_agent"; "confidence"; "is_multi_domain";
                 "secondary_agents"; "reasoning"; "query_type"; "key_topics"]
  ∧ validated !! "is_multi_domain"
    = Some (get analysis "is_multi_domain" (VBool false))
  ∧ validated !! "reasoning"
    = Some (get analysis "reasoning" (VStr "Default routing"))
  ∧ validated !! "query_type"
    = Some (get analysis "query_type" (VStr "simple"))
  ∧ validated !! "key_topics"
    = Some (get analysis "key_topics" (VList [])).
Proof.
  intros (c & elems & kept & _ & _ & _ & ->)%validate_inv.
  split; [|repeat split; reflexivity].
  unfold decision_of, dict_of_items. cbn [fold_left fst snd].
  rewrite !dom_insert_L, dom_empty_L. cbn [list_to_set].
  set_solver.
Qed.

Lemma validate_fields_witness :
  decision_of (dict_of_items [("reasoning", VStr "because"); ("extra", VNone)])
    (VStr "finance") (VFloat 0.5) (VList []) !! "reasoning"
  = Some (VStr "because").
Proof.
  destruct (validate_fields
              (dict_of_items [("reasoning", VStr "because"); ("extra", VNone)])
              (decision_of
                 (dict_of_items [("reasoning", VStr "because");
                                 ("extra", VNone)])
                 (VStr "finance") (VFloat 0.5) (VList []))
              eq_refl) as (_ & _ & Hr & _).
  exact Hr.
Defined.

(** ** More on the keyword classifier *)

(** The confidence of a positive score lies between 0.5 and 0.8. *)
Lemma keyword_confidence_range (n : nat) :
  (1 ≤ n ≤ 41)%nat →
  (0.5 <=? keyword_confidence (Z.of_nat n))%float = true ∧
  (keyword_confidence (Z.of_nat n) <=? 0.8)%float = true.
Proof.
  intros Hn. destruct n as [|n]; [lia|].
  do 41 (destruct n as [|n]; [by vm_compute|]). lia.
Qed.

Lemma fallback_confidence query :
  let fs := finance_score query in
  let cs := code_score query in
  _fallback_analysis query !! "confidence"
  = Some (VFloat (if (cs <? fs)%Z then keyword_confidence fs
                  else if (fs <? cs)%Z then keyword_confidence cs
                  else 0.3)).
Proof.
  intros fs cs. unfold _fallback_analysis. fold fs cs.
  destruct (cs <? fs)%Z; [|destruct (fs <? cs)%Z]; reflexivity.
Qed.

Lemma score_range_finance query :
  (0 ≤ finance_score query ≤ 41)%Z.
Proof. apply (keyword_score_bounds finance_keywords). Qed.

Lemma score_range_code query :
  (0 ≤ code_score query ≤ 34)%Z.
Proof. apply (keyword_score_bounds code_keywords). Qed.

Lemma keyword_confidence_range_Z (z : Z) :
  (1 ≤ z ≤ 41)%Z →
  (0.5 <=? keyword_confidence z)%float = true ∧
  (keyword_confidence z <=? 0.8)%float = true.
Proof.
  intros Hz. rewrite <-(Z2Nat.id z) by lia.
  apply keyword_confidence_range. lia.
Qed.

(** X4: the confidence of a keyword decision is 0.3 on a tie of the
    two scores and lies between 0.5 and 0.8 otherwise. *)
Theorem fallback_confidence_range query :
  ∃ f, _fallback_analysis query !! "confidence" = Some (VFloat f) ∧
       (finance_score query = code_score query → f = 0.3%float) ∧
       (finance_score query ≠ code_score query →
        (0.5 <=? f)%float = true ∧ (f <=? 0.8)%float = true).
Proof.
  eexists. split; [apply fallback_confidence|].
  pose proof (score_range_finance query) as Hf.
  pose proof (score_range_code query) as Hc.
  destruct (Z.ltb_spec (code_score query) (finance_score query));
    [|destruct (Z.ltb_spec (finance_score query) (code_score query))].
  - split; [lia|]. intros _. apply keyword_confidence_range_Z. lia.
  - split; [lia|]. intros _. apply keyword_confidence_range_Z. lia.
  - split; [done|]. lia.
Qed.

Lemma lower_ascii_idemp c : lower_ascii (lower_ascii c) = lower_ascii c.
Proof. by destruct c as [[] [] [] [] [] [] [] []]. Qed.

Lemma lower_ascii_high c :
  (128 ≤ nat_of_ascii (lower_ascii c))%nat → lower_ascii c = c.
Proof.
  destruct c as [[] [] [] [] [] [] [] []]; intros H; try reflexivity;
    vm_compute in H; lia.
Qed.

(** Outside the two characters it rewrites, [lower] works byte by
    byte. *)
Lemma lower_plain c s :
  rewritten (String c s) = false →
  lower (String c s) = String (lower_ascii c) (lower s).
Proof.
  destruct s as [|c1 [|c2 s3]]; [done|..]; cbn [rewritten lower].
  - rewrite orb_false_r. by intros ->.
  - intros [-> ->]%orb_false_elim. done.
Qed.

Lemma rewritten_inv s :
  rewritten s = true →
  (∃ t, s = String "196" (String "176" t))
  ∨ (∃ t, s = String "226" (String "132" (String "170" t))).
Proof.
  destruct s as [|c [|c1 s2]]; [done..|]. cbn [rewritten].
  intros [[->%Ascii.eqb_eq ->%Ascii.eqb_eq]%andb_prop|H]%orb_prop;
    [left; by eexists|].
  destruct s2 as [|c2 s3]; [done|].
  apply andb_prop in H as [[->%Ascii.eqb_eq ->%Ascii.eqb_eq]%andb_prop
                             ->%Ascii.eqb_eq].
  right. by eexists.
Qed.

Lemma lower_U0130 s :
  lower (String "196" (String "176" s))
  = String "i" (String "204" (String "135" (lower s))).
Proof. done. Qed.

Lemma lower_U212A s :
  lower (String "226" (String "132" (String "170" s))) = String "k" (lower s).
Proof. done. Qed.

Lemma lower_cases (P : string → Prop) :
  P "" →
  (∀ s, P s → P (String "196" (String "176" s))) →
  (∀ s, P s → P (String "226" (String "132" (String "170" s)))) →
  (∀ c s, rewritten (String c s) = false → P s → P (String c s)) →
  ∀ s, P s.
Proof.
  intros Hnil H1 H2 Hplain s.
  assert (H : ∀ n s, (String.length s < n)%nat → P s);
    [|by apply (H (S (String.length s)) s); lia].
  clear s. induction n as [|n IH]; intros s Hn; [lia|].
  destruct s as [|c s]; [done|].
  destruct (rewritten (String c s)) eqn:Hr.
  - apply rewritten_inv in Hr as [[t Ht]|[t Ht]]; rewrite Ht in *.
    + apply H1, IH. simpl in Hn. lia.
    + apply H2, IH. simpl in Hn. lia.
  - apply Hplain; [done|]. apply IH. simpl in Hn. lia.
Qed.

(** A byte of [lower s] outside ASCII is a byte of [s], at the same
    place from the start. *)
Lemma lower_high_head s c t :
  lower s = String c t → (128 ≤ nat_of_ascii c)%nat →
  ∃ s', s = String c s' ∧ t = lower s'.
Proof.
  destruct s as [|c0 s1]; [done|].
  destruct (rewritten (String c0 s1)) eqn:Hr.
  - apply rewritten_inv in Hr as [[u ->]|[u ->]].
    + rewrite lower_U0130. intros [= <- _]. vm_compute. lia.
    + rewrite lower_U212A. intros [= <- _]. vm_compute. lia.
  - rewrite lower_plain by done. intros [= Hc <-] Hhigh.
    rewrite <-Hc in Hhigh. apply lower_ascii_high in Hhigh.
    exists s1. split; [|done]. congruence.
Qed.

Lemma rewritten_lower c s :
  rewritten (String c s) = false →
  rewritten (String (lower_ascii c) (lower s)) = false.
Proof.
  intros Hr.
  destruct (rewritten (String (lower_ascii c) (lower s))) eqn:Hl; [|done].
  exfalso. cbn [rewritten] in Hl.
  destruct (lower s) as [|c1 t] eqn:Hs; [done|].
  assert (Hc : lower_ascii c = c).
  { apply lower_ascii_high.
    destruct (Ascii.eqb_spec (lower_ascii c) "196") as [->|];
      [vm_compute; lia|].
    destruct (Ascii.eqb_spec (lower_ascii c) "226") as [->|];
      [vm_compute; lia|].
    simpl in Hl. by destruct t. }
  rewrite Hc in Hl.
  assert (Hc1 : (128 ≤ nat_of_ascii c1)%nat).
  { destruct (Ascii.eqb_spec c1 "176") as [->|]; [vm_compute; lia|].
    destruct (Ascii.eqb_spec c1 "132") as [->|]; [vm_compute; lia|].
    rewrite !andb_false_r in Hl. simpl in Hl. by destruct t. }
  destruct (lower_high_head _ _ _ Hs Hc1) as (s' & -> & ->).
  cbn [rewritten] in Hr. apply orb_false_elim in Hr as [Hr1 Hr2].
  rewrite Hr1 in Hl. cbn [orb] in Hl.
  destruct (lower s') as [|c2 t] eqn:Hs'; [done|].
  assert (Hc2 : (128 ≤ nat_of_ascii c2)%nat).
  { destruct (Ascii.eqb_spec c2 "170") as [->|]; [vm_compute; lia|].
    by rewrite !andb_false_r in Hl. }
  destruct (lower_high_head _ _ _ Hs' Hc2) as (s'' & -> & ->).
  congruence.
Qed.

Lemma lower_idemp s : lower (lower s) = lower s.
Proof.
  induction s as [|s IH|s IH|c s Hr IH] using lower_cases; [done|..].
  - rewrite lower_U0130.
    rewrite !lower_plain; [by rewrite IH|..].
    + by destruct (lower s) as [|? [|? ?]].
    + destruct (lower s) as [|? [|? ?]]; try done.
    + destruct (lower s) as [|? [|? ?]]; try done.
  - rewrite lower_U212A.
    rewrite lower_plain; [by rewrite IH|].
    by destruct (lower s) as [|? [|? ?]].
  - rewrite lower_plain by done.
    rewrite lower_plain by by apply rewritten_lower.
    by rewrite lower_ascii_idemp, IH.
Qed.

(** X5: for a query of ASCII characters the keyword decision does not
    depend on letter case: the query and its lower-cased form get the same
    decision. *)
Theorem fallback_ignores_case query :
  isascii query = true →
  _fallback_analysis (lower query) = _fallback_analysis query.
Proof.
  intros _. unfold _fallback_analysis, finance_score, code_score.
  by rewrite lower_idemp.
Qed.

Lemma fallback_ignores_case_witness :
  _fallback_analysis (lower "Is a Python BOT good for my IRA?")
  = _fallback_analysis "Is a Python BOT good for my IRA?".
Proof.
  apply (fallback_ignores_case "Is a Python BOT good for my IRA?").
  reflexivity.
Defined.

(** X6: a query that matches finance keywords and no code keyword is
    routed to finance alone: not multi-domain, no secondary agent. *)
Theorem fallback_single_domain query :
  (finance_score query > 0)%Z → code_score query = 0%Z →
  _fallback_analysis query !! "primary_agent" = Some (VStr "finance") ∧
  _fallback_analysis query !! "is_multi_domain" = Some (VBool false) ∧
  _fallback_analysis query !! "secondary_agents" = Some (VList []).
Proof.
  intros Hf Hc. unfold _fallback_analysis. rewrite Hc.
  destruct (Z.ltb_spec 0 (finance_score query)); [|lia].
  repeat split; reflexivity.
Qed.

Lemma fallback_single_domain_witness :
  _fallback_analysis "What is an ETF?" !! "primary_agent"
  = Some (VStr "finance") ∧
  _fallback_analysis "What is an ETF?" !! "is_multi_domain"
  = Some (VBool false) ∧
  _fallback_analysis "What is an ETF?" !! "secondary_agents"
  = Some (VList []).
Proof.
  apply (fallback_single_domain "What is an ETF?"); vm_compute; reflexivity.
Defined.

(** ** More on [analyze_query] *)

Lemma keyword_confidence_unit (n : nat) :
  (n ≤ 41)%nat → in_unit_interval (keyword_confidence (Z.of_nat n)).
Proof.
  intros Hn. unfold in_unit_interval.
  do 42 (destruct n as [|n]; [by vm_compute|]). lia.
Qed.

Lemma fallback_confidence_unit query :
  ∃ f, _fallback_analysis query !! "confidence" = Some (VFloat f) ∧
       in_unit_interval f.
Proof.
  eexists. split; [apply fallback_confidence|].
  pose proof (score_range_finance query) as Hf.
  pose proof (score_range_code query) as Hc.
  destruct (Z.ltb_spec (code_score query) (finance_score query)) as [?|?];
    [|destruct (Z.ltb_spec (finance_score query) (code_score query))
        as [?|?]];
    [| |by vm_compute].
  - rewrite <-(Z2Nat.id (finance_score query)) by lia.
    apply keyword_confidence_unit. lia.
  - rewrite <-(Z2Nat.id (code_score query)) by lia.
    apply keyword_confidence_unit. lia.
Qed.

Lemma fallback_well_formed query :
  well_formed_decision (_fallback_analysis query).
Proof.
  destruct (fallback_fields query) as (p & o & Hpo & Hp & Hm & Hs).
  destruct (fallback_confidence_unit query) as (f & Hf & Hunit).
  exists p, f. eexists. split; [exact Hp|].
  assert (Hv : p ∈ valid_agents ∧ o ∈ valid_agents ∧ o ≠ p).
  { unfold valid_agents.
    destruct Hpo as [[-> ->]|[-> ->]]; rewrite !elem_of_cons; by intuition. }
  destruct Hv as (Hpv & Hov & Hne).
  split; [done|]. split; [exact Hf|]. split; [done|].
  split; [exact Hs|]. split; [|by rewrite Hm].
  destruct (_ && _); [|constructor].
  constructor; [|constructor]. by exists o.
Qed.

Lemma validated_well_formed analysis validated :
  _validate_analysis analysis = Ok validated →
  well_formed_decision validated.
Proof.
  intros Hv.
  destruct (validate_confidence _ _ Hv) as (_ & f & _ & Hf & Hunit & _).
  destruct (validate_inv _ _ Hv) as (c & elems & kept & _ & _ & Hk & ->).
  destruct (proj1 (in_str_list_valid _) (effective_primary_known analysis))
    as (p & Hp & Hpv).
  rewrite Hp in *. exists p, f, kept.
  split; [reflexivity|]. split; [done|]. split; [exact Hf|].
  split; [done|]. split; [reflexivity|]. split; [|by eexists].
  apply filterM_keep_secondary_Ok in Hk as [-> _].
  apply Forall_forall. intros x [_ Hx]%list_elem_of_In%filter_In.
  apply is_secondary_true in Hx as (s & -> & Hs & Hne).
  exists s. repeat split; [done|congruence].
Qed.

(** X7: every decision [analyze_query] returns, whether the hosted model
    answered or not and whatever it answered, is well formed: a registered
    primary agent, a confidence within [0.0, 1.0], registered secondary
    agents other than the primary one, and an [is_multi_domain] field. *)
Theorem analyze_query_well_formed (self : LLMRouter.t) (query : string) :
  well_formed_decision (LLMRouter.analyze_query self query).
Proof.
  destruct (analyze_query_cases self query) as [->|(analysis & _ & _ & Hv)].
  - apply fallback_well_formed.
  - by apply validated_well_formed in Hv.
Qed.

(** ** The combiner *)

Lemma fold_left_sections (rs : list (string * string)) (acc : string) :
  fold_left (λ combined resp,
      let agent_title :=
        if String.eqb resp.1 "finance" then "Financial Considerations"
        else "Technical Considerations" in
      let combined :=
        combined +:+ "## " +:+ agent_title +:+ " (Additional Context)"
        +:+ nl +:+ nl in
      combined +:+ resp.2 +:+ nl +:+ nl) rs acc
  = acc +:+ join "" ((λ resp, secondary_section resp.1 resp.2) <$> rs).
Proof.
  revert acc. induction rs as [|[a r] rs IH]; intros acc.
  - by rewrite string_app_nil_r.
  - cbn [fold_left fmap list_fmap]. rewrite IH, join_empty_cons.
    unfold secondary_section. cbn [fst snd].
    by rewrite !string_app_assoc.
Qed.

(** X8: with at least one secondary response, the combined document is
    the title with the query, the primary section, one section per
    secondary response in the order given, and the closing note that lists
    the primary agent and the secondary agents in that same order. *)
Theorem combine_sections_in_order
    (query primary_agent primary_response : string)
    (secondary_responses : list (string * string)) :
  secondary_responses ≠ [] →
  _combine_multi_domain_responses query primary_agent primary_response
    secondary_responses
  = ("**Multi-Domain Analysis for: " +:+ query +:+ "**" +:+ nl +:+ nl)
    +:+ ("## " +:+ (if String.eqb primary_agent "code"
                    then "Technical Implementation"
                    else "Financial Analysis")
         +:+ " (Primary Focus)" +:+ nl +:+ nl)
    +:+ (primary_response +:+ nl +:+ nl)
    +:+ join "" ((λ resp, secondary_section resp.1 resp.2)
                 <$> secondary_responses)
    +:+ ("---" +:+ nl)
    +:+ ("*Note: This query spans multiple domains (" +:+ primary_agent
         +:+ " + " +:+ join ", " (fst <$> secondary_responses) +:+ "). ")
    +:+ "The above analysis covers both technical and financial aspects to provide a comprehensive answer.*".
Proof.
  intros Hne. unfold _combine_multi_domain_responses.
  destruct secondary_responses as [|r rs]; [done|].
  rewrite fold_left_sections. by rewrite !string_app_assoc.
Qed.

Lemma combine_sections_in_order_witness :
  _combine_multi_domain_responses "q" "code" "P" [("finance", "S")]
  = "**Multi-Domain Analysis for: q**" +:+ nl +:+ nl
    +:+ "## Technical Implementation (Primary Focus)" +:+ nl +:+ nl
    +:+ "P" +:+ nl +:+ nl
    +:+ "## Financial Considerations (Additional Context)" +:+ nl +:+ nl
    +:+ "S" +:+ nl +:+ nl
    +:+ "---" +:+ nl
    +:+ "*Note: This query spans multiple domains (code + finance). "
    +:+ "The above analysis covers both technical and financial aspects to provide a comprehensive answer.*".
Proof.
  rewrite (combine_sections_in_order "q" "code" "P" [("finance", "S")])
    by discriminate.
  reflexivity.
Defined.

(** ** More on dispatch *)

Lemma bind_emit {B} (e : event) (k : unit → M B) :
  emit e ≫= k = (e :: calls (k tt), outcome (k tt)).
Proof. unfold emit, calls, outcome. simpl. by destruct (k tt). Qed.

Lemma bind_lift_Ok {A B} (a : A) (k : A → M B) :
  lift (Ok a) ≫= k = k a.
Proof. unfold lift. simpl. by destruct (k a). Qed.

Lemma bind_lift_Raise {A B} (e : exn) (k : A → M B) :
  lift (Raise e) ≫= k = ([], Raise e).
Proof. done. Qed.

Lemma bind_run {A B} (t : list event) (a : A) (k : A → M B) :
  ((t, Ok a) : M A) ≫= k = (t ++ calls (k a), outcome (k a)).
Proof. unfold calls, outcome. simpl. by destruct (k a). Qed.

Lemma bind_mret {A B} (a : A) (k : A → M B) :
  (mret a : M A) ≫= k = k a.
Proof. unfold mret, M_ret. simpl. by destruct (k a). Qed.

Lemma bind_assoc {A B C} (m : M A) (f : A → M B) (g : B → M C) :
  (m ≫= f) ≫= g = m ≫= (λ a, f a ≫= g).
Proof.
  destruct m as [t [a|e]]; [|done]. simpl.
  destruct (f a) as [t' [b|e]]; [|done]. simpl.
  destruct (g b) as [t'' r]. by rewrite app_assoc.
Qed.

Lemma emit_eq {B} (e : event) (k : unit → M B) t (r : result B) :
  k tt = (t, r) → emit e ≫= k = (e :: t, r).
Proof. intros H. by rewrite bind_emit, H. Qed.

Lemma run_eq {A B} (t : list event) (a : A) (k : A → M B) t' T
    (r : result B) :
  k a = (t', r) → t ++ t' = T → ((t, Ok a) : M A) ≫= k = (T, r).
Proof. intros H <-. by rewrite bind_run, H. Qed.

Lemma agents_lookup s :
  s ∈ valid_agents → agents !! s = Some (registered_agent s).
Proof.
  unfold valid_agents. rewrite !elem_of_cons, elem_of_nil.
  by intros [->|[->|[]]].
Qed.

Lemma registry_getitem_registered s :
  s ∈ valid_agents →
  registry_getitem agents (VStr s) = Ok (s, registered_agent s).
Proof. intros Hs. unfold registry_getitem. by rewrite agents_lookup. Qed.

Lemma registry_contains_registered s :
  s ∈ valid_agents → registry_contains agents (VStr s) = Ok true.
Proof.
  intros Hs. unfold registry_contains. rewrite agents_lookup by done.
  by rewrite bool_decide_eq_true_2.
Qed.

(** The loop over registered secondary agents asks each of them, in
    order, and cannot fail. *)
Lemma secondary_responses_run query p l :
  Forall (λ agent, ∃ s, agent = VStr s ∧ s ∈ valid_agents ∧ s ≠ p) l →
  secondary_responses agents query l
  = ((λ s, AgentProcessQuery (name (registered_agent s)) query)
       <$> agent_keys l,
     Ok ((λ s, (s, _generate_response (registered_agent s) query))
           <$> agent_keys l)).
Proof.
  induction 1 as [|x l (s & -> & Hs & _) _ IH]; [done|].
  cbn [secondary_responses].
  rewrite registry_contains_registered, bind_lift_Ok by done.
  rewrite registry_getitem_registered, bind_lift_Ok by done.
  unfold Agents.process_query. rewrite bind_emit.
  cbn [calls outcome mret M_ret fst snd]. rewrite bind_run, IH, bind_run.
  cbn [calls outcome mret M_ret fst snd]. by rewrite app_nil_r.
Qed.

(** What the router of [llm_router.py] does with a well-formed decision. *)
Lemma route_multi_domain_run query (d : gmap string value) p l m :
  d !! "primary_agent" = Some (VStr p) → p ∈ valid_agents →
  d !! "secondary_agents" = Some (VList l) →
  Forall (λ agent, ∃ s, agent = VStr s ∧ s ∈ valid_agents ∧ s ≠ p) l →
  d !! "is_multi_domain" = Some m →
  LLMRouter.route_multi_domain_query query d agents
  = if truthy m then
      (AgentProcessQuery (name (registered_agent p)) query
       :: ((λ s, AgentProcessQuery (name (registered_agent s)) query)
           <$> agent_keys l),
       Ok (_combine_multi_domain_responses query p
             (_generate_response (registered_agent p) query)
             ((λ s, (s, _generate_response (registered_agent s) query))
              <$> agent_keys l)))
    else
      ([AgentProcessQuery (name (registered_agent p)) query],
       Ok (_generate_response (registered_agent p) query)).
Proof.
  intros Hp Hpv Hl Hall Hm.
  unfold LLMRouter.route_multi_domain_query, getitem.
  rewrite Hp, Hm, !bind_lift_Ok.
  destruct (truthy m); cbn [negb];
    rewrite registry_getitem_registered, bind_lift_Ok by done;
    unfold Agents.process_query; rewrite bind_emit;
    cbn [calls outcome mret M_ret fst snd]; [|done].
  rewrite bind_run, Hl, bind_lift_Ok.
  assert ((if truthy (VList l)
           then elems ← lift (iter (VList l));
                secondary_responses agents query elems
           else mret [])
          = secondary_responses agents query l) as ->.
  { destruct l; [done|]. cbn [truthy iter]. by rewrite bind_lift_Ok. }
  rewrite (secondary_responses_run query p l Hall), bind_run.
  cbn [calls outcome mret M_ret fst snd]. by rewrite app_nil_r.
Qed.

Lemma reserved_model_false context :
  reserved_model context = false →
  eq_str (requested_model context) "finance-agent" = false ∧
  eq_str (requested_model context) "code-agent" = false.
Proof. apply orb_false_elim. Qed.

(** Dispatch through the router of [llm_router.py], for a model name
    that is not reserved: the decision is obtained, then followed. *)
Lemma process_query_intelligent_run (r : LLMRouter.t) query user_id context
    p l m :
  reserved_model context = false →
  LLMRouter.analyze_query r query !! "primary_agent" = Some (VStr p) →
  p ∈ valid_agents →
  LLMRouter.analyze_query r query !! "secondary_agents" = Some (VList l) →
  Forall (λ agent, ∃ s, agent = VStr s ∧ s ∈ valid_agents ∧ s ≠ p) l →
  LLMRouter.analyze_query r query !! "is_multi_domain" = Some m →
  process_query (of_LLMRouter r) query user_id context
  = if truthy m then
      (AnalyzeQuery query :: RouteMultiDomainQuery query
       :: AgentProcessQuery (name (registered_agent p)) query
       :: ((λ s, AgentProcessQuery (name (registered_agent s)) query)
           <$> agent_keys l)
       ++ [LogAgentInteraction (or_anonymous user_id) (VStr p)],
       Ok (_combine_multi_domain_responses query p
             (_generate_response (registered_agent p) query)
             ((λ s, (s, _generate_response (registered_agent s) query))
              <$> agent_keys l)))
    else
      ([AnalyzeQuery query;
        AgentProcessQuery (name (registered_agent p)) query;
        LogAgentInteraction (or_anonymous user_id) (VStr p)],
       Ok (_generate_response (registered_agent p) query)).
Proof.
  intros [Hf Hc]%reserved_model_false Hp Hpv Hl Hall Hm.
  unfold process_query. rewrite Hf, Hc.
  unfold route_query_intelligent. cbn [analyze_query of_LLMRouter].
  set (d := LLMRouter.analyze_query r query) in *.
  assert (Hd : dict_truthy d = true).
  { unfold dict_truthy. rewrite bool_decide_eq_false_2; [done|].
    intros Hempty. rewrite Hempty in Hp. by rewrite lookup_empty in Hp. }
  rewrite !bind_assoc.
  destruct (truthy m) eqn:Htruthy.
  - apply emit_eq. rewrite bind_lift_Ok.
    unfold getitem at 1. rewrite Hp, bind_lift_Ok, bind_mret.
    cbn [routing_analysis agent_name].
    unfold get. rewrite Hd, Hm, Htruthy. cbn [andb].
    rewrite bind_assoc. apply emit_eq.
    cbn [route_multi_domain_query of_LLMRouter].
    rewrite (route_multi_domain_run query d p l m) by done.
    rewrite Htruthy. eapply run_eq; [|reflexivity].
    by apply emit_eq.
  - apply emit_eq. rewrite bind_lift_Ok.
    unfold getitem at 1. rewrite Hp, bind_lift_Ok, bind_mret.
    cbn [routing_analysis agent_name].
    unfold get. rewrite Hd, Hm, Htruthy. cbn [andb].
    rewrite registry_getitem_registered by done.
    rewrite bind_assoc, bind_lift_Ok.
    unfold Agents.process_query. rewrite !bind_assoc.
    apply emit_eq. rewrite bind_mret. by apply emit_eq.
Qed.

(** The fields of a decision of the router of [llm_router.py]. *)
Lemma router_decision_fields (r : LLMRouter.t) query :
  ∃ p l m,
    LLMRouter.analyze_query r query !! "primary_agent" = Some (VStr p) ∧
    p ∈ valid_agents ∧
    LLMRouter.analyze_query r query !! "secondary_agents" = Some (VList l) ∧
    Forall (λ agent, ∃ s, agent = VStr s ∧ s ∈ valid_agents ∧ s ≠ p) l ∧
    LLMRouter.analyze_query r query !! "is_multi_domain" = Some m.
Proof.
  assert (Hwf : well_formed_decision (LLMRouter.analyze_query r query)).
  { destruct (analyze_query_cases r query) as [->|(analysis & _ & _ & Hv)].
    - apply fallback_well_formed.
    - by apply validated_well_formed in Hv. }
  destruct Hwf as (p & f & l & Hp & Hpv & _ & _ & Hl & Hall & [m Hm]).
  by exists p, l, m.
Qed.

Lemma eq_str_true v s : eq_str v s = true → v = VStr s.
Proof.
  destruct v as [| | | |t| |]; try done. simpl.
  by intros ->%String.eqb_eq.
Qed.

(** Dispatch for a reserved model name, with any router. *)
Lemma process_query_explicit_run (llm_router : Router) query user_id context :
  reserved_model context = true →
  ∃ p, p ∈ valid_agents ∧
    process_query llm_router query user_id context
    = ([AgentProcessQuery (name (registered_agent p)) query;
        LogAgentInteraction (or_anonymous user_id) (VStr p)],
       Ok (_generate_response (registered_agent p) query)).
Proof.
  unfold reserved_model, process_query.
  destruct (eq_str (requested_model context) "finance-agent") eqn:Hf.
  - intros _. exists "finance". split; [by left|]. reflexivity.
  - destruct (eq_str (requested_model context) "code-agent") eqn:Hc; [|done].
    intros _. exists "code". split; [right; by left|]. reflexivity.
Qed.

(** X9: with the router of [llm_router.py] and a model name that is
    not reserved, dispatch asks the router once and follows its decision:
    when [is_multi_domain] is true it calls the primary agent, then the
    secondary agents in the decision's order, and returns the combined
    document; otherwise it calls the primary agent alone and returns its
    response; the interaction is logged last, under the primary agent. *)
Theorem dispatch_follows_decision
    (r : LLMRouter.t) (query : string) (user_id : option string)
    (context : context_arg) :
  reserved_model context = false →
  ∃ p l m,
    LLMRouter.analyze_query r query !! "primary_agent" = Some (VStr p) ∧
    LLMRouter.analyze_query r query !! "secondary_agents" = Some (VList l) ∧
    LLMRouter.analyze_query r query !! "is_multi_domain" = Some m ∧
    process_query (of_LLMRouter r) query user_id context
    = if truthy m then
        (AnalyzeQuery query :: RouteMultiDomainQuery query
         :: AgentProcessQuery (name (registered_agent p)) query
         :: ((λ s, AgentProcessQuery (name (registered_agent s)) query)
             <$> agent_keys l)
         ++ [LogAgentInteraction (or_anonymous user_id) (VStr p)],
         Ok (_combine_multi_domain_responses query p
               (_generate_response (registered_agent p) query)
               ((λ s, (s, _generate_response (registered_agent s) query))
                <$> agent_keys l)))
      else
        ([AnalyzeQuery query;
          AgentProcessQuery (name (registered_agent p)) query;
          LogAgentInteraction (or_anonymous user_id) (VStr p)],
         Ok (_generate_response (registered_agent p) query)).
Proof.
  intros Hres.
  destruct (router_decision_fields r query)
    as (p & l & m & Hp & Hpv & Hl & Hall & Hm).
  exists p, l, m. split; [done|]. split; [done|]. split; [done|].
  by apply process_query_intelligent_run.
Qed.

Lemma dispatch_follows_decision_witness :
  calls (process_query (of_LLMRouter disabled) "Build a Python trading bot"
           None CtxNone)
  = [AnalyzeQuery "Build a Python trading bot";
     RouteMultiDomainQuery "Build a Python trading bot";
     AgentProcessQuery "CodeAgent" "Build a Python trading bot";
     AgentProcessQuery "FinanceAgent" "Build a Python trading bot";
     LogAgentInteraction "anonymous" (VStr "code")].
Proof.
  destruct (dispatch_follows_decision disabled "Build a Python trading bot"
              None CtxNone eq_refl) as (p & l & m & Hp & Hl & Hm & ->).
  vm_compute in Hp, Hl, Hm.
  injection Hp as <-. injection Hl as <-. injection Hm as <-.
  reflexivity.
Defined.

(** X10: with the router of [llm_router.py], dispatch never fails,
    whatever the hosted model answers: it returns a text, logs exactly one
    interaction, as its last call and under a registered agent, and asks
    agents about the given query only. *)
Theorem dispatch_never_fails
    (r : LLMRouter.t) (query : string) (user_id : option string)
    (context : context_arg) :
  ∃ trace p text,
    process_query (of_LLMRouter r) query user_id context
    = (trace ++ [LogAgentInteraction (or_anonymous user_id) (VStr p)],
       Ok text) ∧
    p ∈ valid_agents ∧
    (∀ u a, LogAgentInteraction u a ∉ trace) ∧
    (∀ agent q, AgentProcessQuery agent q ∈ trace →
                q = query ∧ agent ∈ ["FinanceAgent"; "CodeAgent"]).
Proof.
  assert (Hnames : ∀ s, s ∈ valid_agents →
            name (registered_agent s) ∈ ["FinanceAgent"; "CodeAgent"]).
  { intros s. unfold valid_agents. rewrite !elem_of_cons, elem_of_nil.
    intros [->|[->|[]]]; [by left|right; by left]. }
  destruct (reserved_model context) eqn:Hres.
  - destruct (process_query_explicit_run (of_LLMRouter r) query user_id
                context Hres) as (p & Hpv & ->).
    exists [AgentProcessQuery (name (registered_agent p)) query], p.
    eexists. split; [reflexivity|]. split; [done|]. split.
    + intros u a [[=]|[]%elem_of_nil]%elem_of_cons.
    + intros agent q [[= -> ->]|[]%elem_of_nil]%elem_of_cons. auto.
  - destruct (router_decision_fields r query)
      as (p & l & m & Hp & Hpv & Hl & Hall & Hm).
    rewrite (process_query_intelligent_run r query user_id context p l m)
      by done.
    assert (Hsec : ∀ agent q,
      AgentProcessQuery agent q
      ∈ ((λ s, AgentProcessQuery (name (registered_agent s)) query)
         <$> agent_keys l) →
      q = query ∧ agent ∈ ["FinanceAgent"; "CodeAgent"]).
    { intros agent q (s & [= -> ->] & Hs)%list_elem_of_fmap.
      split; [done|]. apply Hnames.
      unfold agent_keys in Hs. apply list_elem_of_omap in Hs as (v & Hv & Hvs).
      rewrite Forall_forall in Hall.
      destruct (Hall v Hv) as (s' & -> & Hs' & _). by injection Hvs as <-. }
    destruct (truthy m).
    + eexists (_ :: _ :: _ :: _), p. eexists.
      split; [reflexivity|]. split; [done|]. split.
      * intros u a Hin. repeat (apply elem_of_cons in Hin as [[=]|Hin]).
        by apply list_elem_of_fmap in Hin as (s & [=] & _).
      * intros agent q Hin. repeat (apply elem_of_cons in Hin as [Heq|Hin]);
          try discriminate; [|by apply Hsec].
        injection Heq as -> ->. auto.
    + exists [AnalyzeQuery query;
              AgentProcessQuery (name (registered_agent p)) query], p.
      eexists. split; [reflexivity|]. split; [done|]. split.
      * intros u a Hin. repeat (apply elem_of_cons in Hin as [[=]|Hin]).
        by apply elem_of_nil in Hin.
      * intros agent q Hin. repeat (apply elem_of_cons in Hin as [Heq|Hin]);
          try discriminate; [|by apply elem_of_nil in Hin].
        injection Heq as -> ->. auto.
Qed.

(** X11: with any router and a model name that is not reserved, the
    first call of dispatch is the router's analysis of the query; when
    that analysis raises, or returns a decision without [primary_agent],
    dispatch raises in turn ([KeyError] in the second case) without
    calling an agent or logging an interaction. *)
Theorem dispatch_consults_router_first
    (llm_router : Router) (query : string) (user_id : option string)
    (context : context_arg) :
  reserved_model context = false →
  (∃ rest, calls (process_query llm_router query user_id context)
           = AnalyzeQuery query :: rest) ∧
  (∀ e, analyze_query llm_router query = Raise e →
        process_query llm_router query user_id context
        = ([AnalyzeQuery query], Raise e)) ∧
  (∀ analysis, analyze_query llm_router query = Ok analysis →
        analysis !! "primary_agent" = None →
        process_query llm_router query user_id context
        = ([AnalyzeQuery query], Raise KeyError)).
Proof.
  intros [Hf Hc]%reserved_model_false.
  unfold process_query. rewrite Hf, Hc.
  unfold route_query_intelligent. rewrite !bind_assoc, bind_emit.
  split; [by eexists|]. split.
  - intros e ->. by rewrite bind_lift_Raise.
  - intros analysis -> Hnone. rewrite bind_lift_Ok.
    unfold getitem at 1 2. by rewrite Hnone, bind_lift_Raise.
Qed.

Lemma dispatch_consults_router_first_witness :
  ∃ rest,
    calls (process_query (of_LLMRouter disabled) "What is an ETF?" None
             (CtxStr "bookai-general"))
    = AnalyzeQuery "What is an ETF?" :: rest.
Proof.
  apply (dispatch_consults_router_first (of_LLMRouter disabled)
           "What is an ETF?" None (CtxStr "bookai-general") eq_refl).
Defined.

(** ** Words and streaming *)

Lemma string_app_cons c (s1 s2 : string) :
  String c s1 +:+ s2 = String c (s1 +:+ s2).
Proof. done. Qed.

Lemma string_app_eq_nil (s1 s2 : string) : s1 +:+ s2 = "" → s2 = "".
Proof. by destruct s1. Qed.

(** The white-space character a string starts with is decided by its
    first bytes. *)
Lemma space_length_app x s k :
  space_length x = S k → space_length (x +:+ s) = S k.
Proof.
  destruct x as [|c [|c1 [|c2 x]]]; [done|..]; cbn [space_length];
    rewrite ?string_app_cons; cbn [space_length].
  - destruct (is_space c); [done|discriminate].
  - destruct (is_space c); [done|].
    destruct (is_space2 c c1); [done|discriminate].
  - done.
Qed.

Lemma space_length_app_0 x s :
  space_length (x +:+ s) = 0%nat → space_length x = 0%nat.
Proof.
  intros H. destruct (space_length x) as [|k] eqn:Hx; [done|].
  by rewrite (space_length_app _ s _ Hx) in H.
Qed.

(** A space after a string does not complete a white-space character
    begun in it. *)
Lemma space_length_before_space x s :
  x ≠ "" → space_length x = 0%nat →
  space_length (x +:+ String " " s) = 0%nat.
Proof.
  destruct x as [|c [|c1 [|c2 x]]]; [done|..]; intros _;
    cbn [space_length]; rewrite ?string_app_cons; cbn [space_length].
  - destruct (is_space c); [done|]. intros _.
    change ("" +:+ String " " s) with (String " " s). cbn iota.
    unfold is_space2, is_space3.
    destruct (Ascii.eqb c "194"), (Ascii.eqb c "225"), (Ascii.eqb c "226"),
      (Ascii.eqb c "227"), s; done.
  - destruct (is_space c); [done|].
    destruct (is_space2 c c1); [done|]. intros _.
    change ("" +:+ String " " s) with (String " " s). cbn iota.
    unfold is_space3.
    destruct (Ascii.eqb c "225"), (Ascii.eqb c "226"), (Ascii.eqb c "227"),
      (Ascii.eqb c1 "154"), (Ascii.eqb c1 "128"), (Ascii.eqb c1 "129");
      done.
  - done.
Qed.

Lemma split_go_no_space u w s :
  no_space u = true → (s = "" ∨ ∃ s', s = String " " s') →
  split_go w 0 (u +:+ s) = split_go (w +:+ u) 0 s.
Proof.
  intros Hu Hs. revert w Hu. induction u as [|c u IH]; intros w Hu.
  - by rewrite string_app_nil_r.
  - cbn [no_space] in Hu. apply andb_prop in Hu as [Hc%Nat.eqb_eq Hu].
    assert (Hc' : space_length (String c u +:+ s) = 0%nat).
    { destruct Hs as [->|[s' ->]]; [by rewrite string_app_nil_r|].
      by apply space_length_before_space. }
    rewrite string_app_cons in Hc' |- *. cbn [split_go]. rewrite Hc'.
    rewrite IH by done. by rewrite string_app_assoc.
Qed.

Lemma split_go_space w s :
  split_go w 0 (" " +:+ s)
  = if String.eqb w "" then split_go "" 0 s else w :: split_go "" 0 s.
Proof. done. Qed.

(** Splitting the words joined by single spaces gives the words back. *)
Lemma split_join ws :
  Forall is_word ws → split (join " " ws) = ws.
Proof.
  unfold split. induction 1 as [|x ws [Hne Hx] Hws IH]; [done|].
  assert (Hx' : String.eqb x "" = false) by by apply String.eqb_neq.
  destruct ws as [|y ws].
  - change (join " " [x]) with x.
    rewrite <-(string_app_nil_r x) at 1.
    rewrite split_go_no_space by (by try left).
    change ("" +:+ x) with x. cbn [split_go]. by rewrite Hx'.
  - rewrite join_cons by done.
    rewrite split_go_no_space by (by try (right; eexists)).
    change ("" +:+ x) with x. by rewrite split_go_space, Hx', IH.
Qed.

Lemma no_space_before_snoc w c s :
  no_space_before (w +:+ String c "") s
  = no_space_before w (String c s) && Nat.eqb (space_length (String c s)) 0.
Proof.
  induction w as [|c' w IH].
  { change ("" +:+ String c "") with (String c "").
    cbn [no_space_before]. by rewrite andb_true_r. }
  rewrite string_app_cons. cbn [no_space_before].
  rewrite IH, <-string_app_cons, string_app_assoc, andb_assoc. done.
Qed.

Lemma no_space_before_no_space w s :
  no_space_before w s = true → no_space w = true.
Proof.
  induction w as [|c w IH]; [done|]. cbn [no_space_before no_space].
  intros [Hc%Nat.eqb_eq Hw]%andb_prop.
  rewrite (space_length_app_0 _ _ Hc). by rewrite IH.
Qed.

(** What [split] returns are words. *)
Lemma split_go_words w skip s :
  match skip with
  | O => no_space_before w s = true
  | S _ => w = ""
  end →
  Forall is_word (split_go w skip s).
Proof.
  revert w skip. induction s as [|c s IH]; intros w skip Hw; cbn [split_go].
  - destruct (String.eqb_spec w ""); [constructor|].
    constructor; [|constructor]. split; [done|].
    destruct skip; [|done]. by eapply no_space_before_no_space.
  - destruct skip as [|k]; [|subst w; apply IH; by destruct k].
    destruct (space_length (String c s)) as [|k] eqn:Hc.
    + apply IH. rewrite no_space_before_snoc, Hw, Hc. done.
    + assert (Forall is_word (split_go "" k s)) by (by apply IH; destruct k).
      destruct (String.eqb_spec w ""); [done|].
      constructor; [|done]. split; [done|].
      by eapply no_space_before_no_space.
Qed.

Lemma split_words s : Forall is_word (split s).
Proof. by apply split_go_words. Qed.

(** X12: streaming keeps the words of the response: the chunks,
    concatenated and split again at whitespace, give exactly the words of
    the response, in order. *)
Theorem stream_preserves_words (response : string) :
  split (join "" (stream_chunks response)) = split response.
Proof.
  unfold stream_chunks. rewrite join_chunks_of by lia.
  apply split_join, split_words.
Qed.

(** ** The endpoints *)

Lemma try_except_Ok {A} (t : list event) (a : A) (handler : exn → M A) :
  Routes.try_except ((t, Ok a) : M A) handler = (t, Ok a).
Proof. done. Qed.

(** With the router of [llm_router.py], dispatch returns a text. *)
Lemma process_query_returns (r : LLMRouter.t) query user_id context :
  ∃ text,
    outcome (process_query (of_LLMRouter r) query user_id context) = Ok text.
Proof.
  destruct (reserved_model context) eqn:Hres.
  - destruct (process_query_explicit_run (of_LLMRouter r) query user_id
                context Hres) as (p & _ & ->). by eexists.
  - destruct (router_decision_fields r query)
      as (p & l & m & Hp & Hpv & Hl & Hall & Hm).
    rewrite (process_query_intelligent_run r query user_id context p l m)
      by done.
    destruct (truthy m); by eexists.
Qed.

Lemma stream_chat_response_eq (llm_router : Router) exn_str
    request_id user_message model created_time context :
  Routes.stream_chat_response llm_router exn_str request_id user_message
    model created_time context
  = (calls (process_query llm_router user_message (Some request_id) context),
     Ok match outcome (process_query llm_router user_message
                         (Some request_id) context) with
        | Ok response =>
            ((λ chunk, Routes.ChunkEvent request_id created_time model
                         (Some chunk) None) <$> stream_chunks response)
            ++ [Routes.ChunkEvent request_id created_time model None
                  (Some "stop");
                Routes.DoneEvent]
        | Raise e =>
            [Routes.ChunkEvent request_id created_time model
               (Some ("Error: " +:+ exn_str e)) (Some "error");
             Routes.DoneEvent]
        end).
Proof.
  unfold Routes.stream_chat_response, process_query_stream.
  destruct (process_query llm_router user_message (Some request_id) context)
    as [t [response|e]]; unfold calls, outcome; simpl.
  - by rewrite !app_nil_r.
  - by rewrite app_nil_r.
Qed.

(** X13: the streamed completion never raises and always ends with
    the [DONE] event; when dispatch returns a text of N words the events
    are the content chunks in order, ceil(N/5) of them, then one event
    with finish reason stop, then [DONE], all carrying the request's id,
    creation time and model; when dispatch raises they are one error
    event and [DONE]. *)
Theorem stream_events
    (llm_router : Router) (exn_str : exn → string)
    (request_id user_message : string) (model : option string)
    (created_time : Z) (context : context_arg) :
  ∃ events,
    Routes.stream_chat_response llm_router exn_str request_id user_message
      model created_time context
    = (calls (process_query llm_router user_message (Some request_id)
                context),
       Ok events) ∧
    last events = Some Routes.DoneEvent ∧
    (∀ response,
       outcome (process_query llm_router user_message (Some request_id)
                  context) = Ok response →
       events
       = ((λ chunk, Routes.ChunkEvent request_id created_time model
                      (Some chunk) None) <$> stream_chunks response)
         ++ [Routes.ChunkEvent request_id created_time model None
               (Some "stop");
             Routes.DoneEvent] ∧
       length events = ((length (split response) + 4) / 5 + 2)%nat) ∧
    (∀ e,
       outcome (process_query llm_router user_message (Some request_id)
                  context) = Raise e →
       events
       = [Routes.ChunkEvent request_id created_time model
            (Some ("Error: " +:+ exn_str e)) (Some "error");
          Routes.DoneEvent]).
Proof.
  eexists. split; [apply stream_chat_response_eq|].
  destruct (outcome (process_query llm_router user_message (Some request_id)
                       context)) as [response|e].
  - split; [|split; [|done]].
    + rewrite last_app. done.
    + intros ? [= <-]. split; [done|].
      rewrite length_app, length_fmap. unfold stream_chunks, chunks_of.
      rewrite length_fmap. unfold range_step.
      rewrite length_fmap, length_seq. cbn [length].
      by replace (length (split response) + 5 - 1)%nat
        with (length (split response) + 4)%nat by lia.
  - split; [done|]. split; [done|]. by intros ? [= <-].
Qed.

(** X14: every error the chat endpoint raises is an HTTP error of
    status 500 whose detail starts with Internal server error; it raises
    no other status. *)
Theorem chat_completions_errors_are_500
    (llm_router : Router) (exn_str : exn → string)
    (request_id : string) (created_time : Z)
    (request : Routes.ChatCompletionRequest) (e : exn) :
  outcome (Routes.chat_completions llm_router exn_str request_id created_time
             request) = Raise e →
  ∃ detail, e = HTTPException 500 ("Internal server error: " +:+ detail).
Proof.
  unfold Routes.chat_completions, Routes.try_except.
  destruct (_ ≫= _) as [t [a|e']]; unfold outcome; simpl; [done|].
  intros [= <-]. by eexists.
Qed.

Lemma chat_completions_errors_are_500_witness :
  ∃ detail,
    HTTPException 500
      ("Internal server error: "
       +:+ (λ _, "400: Messages cannot be empty")
             (HTTPException 400 "Messages cannot be empty"))
    = HTTPException 500 ("Internal server error: " +:+ detail).
Proof.
  apply (chat_completions_errors_are_500 (of_LLMRouter disabled)
           (λ _, "400: Messages cannot be empty") "chatcmpl-0" 0
           {| Routes.messages := []; Routes.model := None;
              Routes.temperature := None; Routes.max_tokens := None;
              Routes.stream := None; Routes.stop := None |}).
  reflexivity.
Defined.

(** X15: the chat endpoint reads the last message only: the earlier
    messages of the request, and its temperature, token limit and stop
    sequences, do not change the calls made nor the result. *)
Theorem chat_completions_reads_last_message
    (llm_router : Router) (exn_str : exn → string)
    (request_id : string) (created_time : Z)
    (earlier : list Routes.ChatMessage) (m : Routes.ChatMessage)
    (model : option string) (temperature : option float)
    (max_tokens : option Z) (stream : option bool)
    (stop : option (string + list string)) :
  Routes.chat_completions llm_router exn_str request_id created_time
    {| Routes.messages := earlier ++ [m]; Routes.model := model;
       Routes.temperature := temperature; Routes.max_tokens := max_tokens;
       Routes.stream := stream; Routes.stop := stop |}
  = Routes.chat_completions llm_router exn_str request_id created_time
      {| Routes.messages := [m]; Routes.model := model;
         Routes.temperature := None; Routes.max_tokens := None;
         Routes.stream := stream; Routes.stop := None |}.
Proof.
  unfold Routes.chat_completions. cbn [Routes.messages Routes.model Routes.stream].
  by rewrite last_snoc.
Qed.

(** X16: with the router of [llm_router.py], a non-streaming request
    with at least one message and a model name gets a completion: one
    choice, of role assistant and finish reason stop, whose content is the
    text dispatch returns for the last message, with the word counts of
    the message and of the text as usage and their sum as total. *)
Theorem chat_completions_completion
    (r : LLMRouter.t) (exn_str : exn → string)
    (request_id : string) (created_time : Z)
    (earlier : list Routes.ChatMessage) (m : Routes.ChatMessage)
    (model : string) (temperature : option float)
    (max_tokens : option Z) (stream : option bool)
    (stop : option (string + list string)) :
  default false stream = false →
  let dispatch :=
    process_query (of_LLMRouter r) (Routes.content m) (Some request_id)
      (CtxDict (<["model" := VStr model]> ∅)) in
  ∃ text,
    outcome dispatch = Ok text ∧
    Routes.chat_completions (of_LLMRouter r) exn_str request_id created_time
      {| Routes.messages := earlier ++ [m]; Routes.model := Some model;
         Routes.temperature := temperature; Routes.max_tokens := max_tokens;
         Routes.stream := stream; Routes.stop := stop |}
    = (calls dispatch,
       Ok (Routes.Completion {|
         Routes.id := request_id;
         Routes.object := "chat.completion";
         Routes.created := created_time;
         Routes.response_model := model;
         Routes.choices :=
           [ {| Routes.index := 0;
                Routes.message := {| Routes.role := "assistant";
                                     Routes.content := text |};
                Routes.finish_reason := "stop" |} ];
         Routes.usage :=
           [ ("prompt_tokens",
              Z.of_nat (length (split (Routes.content m))));
             ("completion_tokens", Z.of_nat (length (split text)));
             ("total_tokens",
              (Z.of_nat (length (split (Routes.content m)))
               + Z.of_nat (length (split text)))%Z) ]
       |})).
Proof.
  intros Hstream dispatch. subst dispatch.
  destruct (process_query_returns r (Routes.content m) (Some request_id)
              (CtxDict (<["model" := VStr model]> ∅))) as [text Htext].
  exists text. split; [exact Htext|].
  unfold Routes.chat_completions.
  cbn [Routes.messages Routes.model Routes.stream Routes.value_of_model].
  rewrite last_snoc, Hstream, bind_mret.
  destruct (process_query _ _ _ _) as [t [text'|e]]; [|discriminate Htext].
  injection Htext as ->. unfold Routes.try_except, calls. simpl.
  by rewrite app_nil_r.
Qed.

Lemma chat_completions_completion_witness :
  ∃ text,
    outcome (process_query (of_LLMRouter disabled) "What is an ETF?"
               (Some "chatcmpl-0")
               (CtxDict (<["model" := VStr "bookai-general"]> ∅)))
    = Ok text.
Proof.
  destruct (chat_completions_completion disabled (λ _, "") "chatcmpl-0" 0 []
              {| Routes.role := "user"; Routes.content := "What is an ETF?" |}
              "bookai-general" None None None None eq_refl)
    as (text & Htext & _).
  by exists text.
Defined.

(** ** The routing endpoints and the legacy route *)

(** X17: the analysis endpoint asks the router once and calls no
    agent; it returns the router's decision with the routing statistics
    when the decision has a [primary_agent] and the statistics are read
    without error, and every error it raises is an HTTP error of status
    500 whose detail starts with Analysis failed. *)
Theorem analyze_endpoint_does_not_dispatch
    (llm_router : Router) (routing_stats : result (gmap string value))
    (exn_str : exn → string) (query : string) :
  let run :=
    RoutingRoutes.analyze_query llm_router routing_stats exn_str query in
  calls run = [AnalyzeQuery query] ∧
  (∀ decision stats,
     analyze_query llm_router query = Ok decision →
     routing_stats = Ok stats →
     is_Some (decision !! "primary_agent") →
     outcome run
     = Ok {| RoutingRoutes.query := query;
             RoutingRoutes.analysis := decision;
             RoutingRoutes.routing_stats := stats |}) ∧
  (∀ e, outcome run = Raise e →
        ∃ detail, e = HTTPException 500 ("Analysis failed: " +:+ detail)).
Proof.
  intros run. subst run.
  unfold RoutingRoutes.analyze_query, route_query_intelligent.
  rewrite !bind_assoc, bind_emit.
  destruct (analyze_query llm_router query) as [decision|e].
  - rewrite bind_lift_Ok. destruct routing_stats as [stats|e].
    + rewrite bind_lift_Ok. unfold getitem.
      destruct (decision !! "primary_agent") as [p|] eqn:Hp.
      * rewrite bind_lift_Ok.
        cbn [calls outcome mret M_ret fst snd Routes.try_except].
        split; [done|].
        split; [by intros ? ? [= <-] [= <-] _|by intros ? [=]].
      * rewrite bind_lift_Raise.
        cbn [calls outcome fst snd Routes.try_except Routes.raise lift app].
        split; [done|]. split.
        -- intros ? ? [= <-] _ [? ?]. congruence.
        -- intros e [= <-]. by eexists.
    + rewrite bind_lift_Raise.
      cbn [calls outcome fst snd Routes.try_except Routes.raise lift app].
      split; [done|]. split; [done|]. intros e' [= <-]. by eexists.
  - rewrite bind_lift_Raise.
    cbn [calls outcome fst snd Routes.try_except Routes.raise lift app].
    split; [done|]. split; [done|]. intros e' [= <-]. by eexists.
Qed.




Lemma existsb_contains_lower patterns query :
  existsb (λ pattern, contains pattern (lower (lower query))) patterns
  = existsb (λ pattern, contains pattern (lower query)) patterns.
Proof. by rewrite lower_idemp. Qed.

(** X19: the legacy route returns finance or code; it returns code
    exactly when the lower-cased query contains a code pattern and no
    finance pattern, so a finance pattern always wins; and for a query of
    ASCII characters it does not depend on letter case. *)
Theorem route_query_legacy (query : string) :
  (route_query query = "finance" ∨ route_query query = "code") ∧
  (route_query query = "code" ↔
   (∀ pattern, pattern ∈ routing_patterns_finance →
               contains pattern (lower query) = false) ∧
   (∃ pattern, pattern ∈ routing_patterns_code ∧
               contains pattern (lower query) = true)) ∧
  (isascii query = true → route_query (lower query) = route_query query).
Proof.
  unfold route_query. rewrite !existsb_contains_lower.
  destruct (existsb _ routing_patterns_finance) eqn:Hf.
  - split; [by left|]. split; [|done]. split; [done|].
    intros [Hnone _]. apply existsb_exists in Hf as (k & Hk & Hc).
    apply list_elem_of_In in Hk. by rewrite Hnone in Hc.
  - assert (Hnone : ∀ pattern, pattern ∈ routing_patterns_finance →
                      contains pattern (lower query) = false).
    { intros k Hk%list_elem_of_In.
      destruct (contains k (lower query)) eqn:Hc; [|done].
      assert (existsb (λ pattern, contains pattern (lower query))
                routing_patterns_finance = true)
        by (apply existsb_exists; eauto).
      congruence. }
    destruct (existsb _ routing_patterns_code) eqn:Hc.
    + split; [by right|]. split; [|done]. split; [|done].
      intros _. split; [done|].
      apply existsb_exists in Hc as (k & Hk & Hck).
      exists k. by rewrite <-list_elem_of_In in Hk.
    + split; [by left|]. split; [|done]. split; [done|].
      intros [_ (k & Hk%list_elem_of_In & Hck)].
      assert (existsb (λ pattern, contains pattern (lower query))
                routing_patterns_code = true)
        by (apply existsb_exists; eauto).
      congruence.
Qed.

(** ** Statistics, streaming through the endpoint, and odd answers *)

(** X20: the routing statistics tell the truth about the mode: when
    they report [fallback_mode], they report the LLM as disabled and the
    model as keyword-based, and [analyze_query] is the keyword classifier
    on every query. *)
Theorem routing_stats_fallback_mode (self : LLMRouter.t) :
  get_routing_stats self !! "fallback_mode" = Some (VBool true) →
  get_routing_stats self !! "llm_enabled" = Some (VBool false) ∧
  get_routing_stats self !! "model" = Some (VStr "keyword-based") ∧
  ∀ query, LLMRouter.analyze_query self query = _fallback_analysis query.
Proof.
  unfold get_routing_stats, LLMRouter.analyze_query.
  destruct (enabled self); [by intros [=]|intros _].
  split; [reflexivity|]. split; [reflexivity|]. done.
Qed.

Lemma routing_stats_fallback_mode_witness :
  get_routing_stats disabled !! "model" = Some (VStr "keyword-based").
Proof.
  apply (routing_stats_fallback_mode disabled). reflexivity.
Defined.

(** X21: with the LLM router the streamed reply never carries an error
    event: dispatch returns a text, and the stream is one content event
    per chunk of that same text, then the stop event and the end
    marker. *)
Theorem stream_endpoint_matches_dispatch
    (r : LLMRouter.t) (exn_str : exn → string)
    (request_id user_message : string) (model : option string)
    (created_time : Z) (context : context_arg) :
  ∃ text,
    outcome (process_query (of_LLMRouter r) user_message (Some request_id)
               context) = Ok text ∧
    outcome (Routes.stream_chat_response (of_LLMRouter r) exn_str request_id
               user_message model created_time context)
    = Ok (((λ chunk, Routes.ChunkEvent request_id created_time model
                       (Some chunk) None) <$> stream_chunks text)
          ++ [Routes.ChunkEvent request_id created_time model None
                (Some "stop");
              Routes.DoneEvent]).
Proof.
  destruct (process_query_returns r user_message (Some request_id) context)
    as [text Htext].
  exists text. split; [done|].
  rewrite stream_chat_response_eq. unfold outcome at 1. simpl.
  by rewrite Htext.
Qed.

(** A string whose bytes after the first all continue a character is no
    agent name. *)
Lemma continued_not_secondary p c (t : string) :
  continues t = true → is_secondary p (VStr (String c t)) = false.
Proof.
  intros Ht. unfold is_secondary, valid_agents.
  cbn [existsb eq_str String.eqb]. destruct t as [|c1 t'].
  - by destruct c as [[] [] [] [] [] [] [] []].
  - cbn [continues] in Ht. apply andb_prop in Ht as [Hc1 _].
    assert (String.eqb (String c1 t') "inance" = false) as ->.
    { cbn [String.eqb]. by destruct (Ascii.eqb_spec c1 "i") as [->|_]. }
    assert (String.eqb (String c1 t') "ode" = false) as ->.
    { cbn [String.eqb]. by destruct (Ascii.eqb_spec c1 "o") as [->|_]. }
    by destruct (Ascii.eqb c "f"), (Ascii.eqb c "c").
Qed.

Lemma chars_go_continued s :
  continues (chars_go s).1 = true ∧
  Forall (λ x, ∃ c t, x = String c t ∧ continues t = true) (chars_go s).2.
Proof.
  induction s as [|c s [IHc IHl]]; [split; [done|constructor]|].
  cbn [chars_go]. destruct (chars_go s) as [continuation l].
  cbn [fst snd] in IHc, IHl.
  destruct (is_continuation c) eqn:Hc; cbn [fst snd].
  - split; [|done]. cbn [continues]. by rewrite Hc.
  - split; [done|]. constructor; [by eauto|done].
Qed.

Lemma chars_not_secondary p s :
  List.filter (is_secondary p) (chars s) = [].
Proof.
  unfold chars. destruct (chars_go_continued s) as [Hc Hl].
  destruct (chars_go s) as [continuation l]. cbn [fst snd] in Hc, Hl.
  assert (Hnone : List.filter (is_secondary p) (VStr <$> l) = []).
  { induction Hl as [|x l (c & t & -> & Ht) _ IH]; [done|].
    cbn [fmap list_fmap List.filter].
    by rewrite (continued_not_secondary p c t Ht). }
  destruct continuation as [|c t]; [done|].
  change (String.eqb (String c t) "") with false. cbv iota.
  cbn [fmap list_fmap List.filter].
  cbn [continues] in Hc. apply andb_prop in Hc as [_ Ht].
  by rewrite (continued_not_secondary p c t Ht).
Qed.

(** X22: when the model answers with a string where the list of
    secondary agents is expected, a validation that returns keeps no
    secondary agent: the string is read character by character and no
    single character is an agent name. *)
Theorem validate_secondary_string analysis (s : string) validated :
  analysis !! "secondary_agents" = Some (VStr s) →
  _validate_analysis analysis = Ok validated →
  validated !! "secondary_agents" = Some (VList []).
Proof.
  intros Hs (c & elems & kept & _ & He & Hk & ->)%validate_inv.
  unfold get in He. rewrite Hs in He. injection He as <-.
  apply filterM_keep_secondary_Ok in Hk as [-> _].
  rewrite chars_not_secondary. reflexivity.
Qed.

Lemma validate_secondary_string_witness :
  decision_of ∅ (VStr "code") (VFloat 0.5) (VList []) !! "secondary_agents"
  = Some (VList []).
Proof.
  apply (validate_secondary_string
           (dict_of_items [("primary_agent", VStr "code");
                           ("secondary_agents", VStr "finance")])
           "finance"); reflexivity.
Defined.
